(** * ha_trace_parser: the alias mapper and the trace normalizer

    A shallow embedding of [trace_parser.py] (Home Assistant trace parser,
    v6.0) and the properties its specification states about it.

    Layout: Python values and the built-in operations the program uses;
    the alias mapper ([map_steps], [load_automation]); the trace normalizer
    ([process_trace], [format_output]); the friendly-name check of [main];
    then the theorems. *)

From Stdlib Require Import ZArith Ascii String List Sorted Permutation Lia.
From stdpp Require Import base option list gmap strings pretty.

Open Scope Z_scope.
Open Scope string_scope.
Open Scope list_scope.

(** ** Python values

    What [yaml.safe_load] and [json.load] return, without floats and
    dates: [None], booleans, integers, strings, lists and dicts.  A dict
    is kept as its items in insertion order (the order [.items()] and
    [.values()] iterate in); its keys are strings and pairwise distinct. *)

#[warnings="-register-all"]
Inductive value : Type :=
  | VNone
  | VBool (b : bool)
  | VInt (z : Z)
  | VStr (s : string)
  | VList (l : list value)
  | VDict (d : list (string * value)).

(** Exceptions the modelled code can raise. *)
Inductive exn : Type :=
  | KeyError (k : string)
  | IndexError
  | TypeError
  | AttributeError
  | ValueError
  | UnknownTimeZoneError.

(** A computation that returns or raises: [inl e] is a raised exception. *)
Definition result (A : Type) : Type := exn + A.

Definition ok {A} (a : A) : result A := inr a.
Definition raise {A} (e : exn) : result A := inl e.
Definition rbind {A B} (r : result A) (k : A -> result B) : result B :=
  match r with
  | inl e => inl e
  | inr a => k a
  end.

Notation "'do' x <- r ; k" := (rbind r (fun x => k))
  (at level 10, x name, r at level 100, k at level 200).

(** [bool(v)]: Python truthiness. *)
Definition py_truthy (v : value) : bool :=
  match v with
  | VNone => false
  | VBool b => b
  | VInt z => negb (z =? 0)%Z
  | VStr s => negb (String.eqb s "")
  | VList l => match l with [] => false | _ => true end
  | VDict d => match d with [] => false | _ => true end
  end.

(** [d.get(k)] on the items of a dict; [None] when the key is absent. *)
Fixpoint dict_lookup (d : list (string * value)) (k : string) : option value :=
  match d with
  | [] => None
  | (k', v) :: d' => if String.eqb k' k then Some v else dict_lookup d' k
  end.

Definition dict_get (d : list (string * value)) (k : string) : value :=
  match dict_lookup d k with
  | Some v => v
  | None => VNone
  end.

(** ** Strings *)

(** [s[n:]] *)
Fixpoint str_drop (n : nat) (s : string) : string :=
  match n, s with
  | O, _ => s
  | S n', String _ s' => str_drop n' s'
  | S _, EmptyString => EmptyString
  end.

(** [s.lstrip('/')] *)
Fixpoint lstrip_slash (s : string) : string :=
  match s with
  | String c s' => if Ascii.eqb c "/"%char then lstrip_slash s' else s
  | EmptyString => EmptyString
  end.

(** [sub in s] *)
Fixpoint str_contains (sub s : string) : bool :=
  String.prefix sub s ||
  match s with
  | String _ s' => str_contains sub s'
  | EmptyString => false
  end.

(** [s.replace(old, new)] for a non-empty [old]: every occurrence, left
    to right, without overlap.  [skip] counts the characters of a match
    still to be passed over. *)
Fixpoint replace_from (old new : string) (skip : nat) (s : string) : string :=
  match s with
  | EmptyString => EmptyString
  | String c s' =>
      match skip with
      | S k => replace_from old new k s'
      | O =>
          if String.prefix old s
          then new +:+ replace_from old new (String.length old - 1) s'
          else String c (replace_from old new 0 s')
      end
  end.

Definition py_replace (old new s : string) : string := replace_from old new 0 s.

(** ["sep".join(parts)] *)
Fixpoint str_join (sep : string) (parts : list string) : string :=
  match parts with
  | [] => ""
  | [p] => p
  | p :: rest => p +:+ sep +:+ str_join sep rest
  end.

(** ** The Python library behind the program

    [datetime], [pytz], [json.dumps] and [repr] belong to the Python
    runtime, not to this repository; the embedding takes them as an
    interface.  A POSIX timestamp is kept as its count of microseconds:
    [datetime.timestamp] divides that count by 10^6 with one rounding,
    which is monotone, and distinct counts give distinct floats for every
    date before the year 2242. *)

Class PyRuntime : Type := {
  datetime : Type;
  tzinfo : Type;
  (** [pytz.timezone(name)]; [None] is [UnknownTimeZoneError]. *)
  pytz_timezone : string -> option tzinfo;
  pytz_timezone_UTC : is_Some (pytz_timezone "UTC");
  (** [datetime.fromisoformat(s)]; [None] is [ValueError]. *)
  fromisoformat : string -> option datetime;
  (** [dt.timestamp()], in microseconds. *)
  timestamp_us : datetime -> Z;
  (** [dt.astimezone(tz).strftime('%Y-%m-%d %H:%M:%S.%f %Z')] *)
  strftime_in : tzinfo -> datetime -> string;
  (** [repr(v)] of a list or a dict. *)
  py_repr : value -> string;
  (** [json.dumps(v, indent=2, ensure_ascii=False)] *)
  json_dumps : value -> string
}.

(** [str(v)], as an f-string renders a value. *)
Definition py_str `{PyRuntime} (v : value) : string :=
  match v with
  | VNone => "None"
  | VBool true => "True"
  | VBool false => "False"
  | VInt z => pretty z
  | VStr s => s
  | VList _ | VDict _ => py_repr v
  end.

(** ** The alias mapper *)

Section AliasMapper.
Context `{PyRuntime}.

(** The label of a node that has no alias of its own (lines 51-56 and
    69-73): the nearest alias and the path below it, or the path. *)
Definition inherited_label (path : string) (nearest_alias : value)
    (nearest_alias_path : option string) : value :=
  if py_truthy nearest_alias then
    let path_sublevel :=
      match nearest_alias_path with
      | Some p =>
          if negb (String.eqb p "")
          then lstrip_slash (str_drop (String.length p) path)
          else path
      | None => path
      end in
    VStr (py_str nearest_alias +:+ "//" +:+ path_sublevel)
  else VStr path.

Fixpoint map_steps (steps : value) (base : string)
    (mapping : gmap string value) (nearest_alias : value)
    (nearest_alias_path : option string) {struct steps} : gmap string value :=
  match steps with
  | VList l =>
      snd (fold_left
        (fun (acc : nat * gmap string value) (step : value) =>
           let '(idx, mapping) := acc in
           let path :=
             if negb (String.eqb base "")
             then base +:+ "/" +:+ pretty idx
             else "sequence/" +:+ pretty idx in
           let local_alias :=
             match step with VDict d => dict_get d "alias" | _ => VNone end in
           let '(mapping, inherited_alias, inherited_alias_path) :=
             if py_truthy local_alias
             then (<[path := local_alias]> mapping, local_alias, Some path)
             else (<[path := inherited_label path nearest_alias nearest_alias_path]> mapping,
                   nearest_alias, nearest_alias_path) in
           let mapping :=
             match step with
             | VDict d =>
                 fold_left
                   (fun (mapping : gmap string value) (item : string * value) =>
                      match item with
                      | (key, v) =>
                          map_steps v (path +:+ "/" +:+ key) mapping
                            inherited_alias inherited_alias_path
                      end)
                   d mapping
             | _ => mapping
             end in
           (S idx, mapping))
        l (O, mapping))
  | VDict d =>
      let local_alias := dict_get d "alias" in
      let nonempty_base := negb (String.eqb base "") in
      let '(mapping, inherited_alias, inherited_alias_path) :=
        if py_truthy local_alias && nonempty_base
        then (<[base := local_alias]> mapping, local_alias, Some base)
        else
          (if py_truthy nearest_alias && nonempty_base
           then <[base := inherited_label base nearest_alias nearest_alias_path]> mapping
           else if nonempty_base then <[base := VStr base]> mapping
           else mapping,
           nearest_alias, nearest_alias_path) in
      fold_left
        (fun (mapping : gmap string value) (item : string * value) =>
           match item with
           | (key, v) =>
               map_steps v
                 (if negb (String.eqb base "") then base +:+ "/" +:+ key else key)
                 mapping inherited_alias inherited_alias_path
           end)
        d mapping
  | _ => mapping
  end.

Definition is_container (v : value) : bool :=
  match v with
  | VList _ | VDict _ => true
  | _ => false
  end.

(** [load_automation], from the document [yaml.safe_load] returned. *)
Definition load_automation (automation : value) : result (gmap string value) :=
  match automation with
  | VDict items =>
      ok (fold_left
            (fun (mapping : gmap string value) (item : string * value) =>
               match item with
               | (key, v) =>
                   if String.eqb key "sequence" || is_container v
                   then map_steps v key mapping VNone None
                   else mapping
               end)
            items ∅)
  | _ => raise AttributeError
  end.
End AliasMapper.

(** ** The trace normalizer *)

(** The newline character of the Python literals. *)
Definition nl : string := String (ascii_of_nat 10) EmptyString.

(** A trace event: the items of a dict that has a [path] key. *)
Definition event : Type := list (string * value).

(** A display record (the dict [line] of [process_trace]).  [data] holds
    the items of the data bag in insertion order; [error] is [None] when
    the record has no [error] key. *)
Record line : Type := {
  timestamp : string;
  alias : value;
  path : string;
  data : list (string * value);
  error : option value
}.

(** An element of the output list: a marker string or a display record. *)
Inductive entry : Type :=
  | Marker (s : string)
  | Line (l : line).

(** What [process_trace] can read and write: the dict object behind its
    [alias_mapping] argument, and the files by name. *)
Record world : Type := {
  alias_mapping : gmap string value;
  files : gmap string string
}.

(** [open(name, 'a').write(text)] *)
Definition append_file (name text : string) (w : world) : world :=
  {| alias_mapping := alias_mapping w;
     files := <[name := default "" (files w !! name) +:+ text]> (files w) |}.

(** [v[k]] for a string [k]. *)
Definition py_getitem (v : value) (k : string) : result value :=
  match v with
  | VDict d =>
      match dict_lookup d k with
      | Some x => ok x
      | None => raise (KeyError k)
      end
  | _ => raise TypeError
  end.

(** [v[0]]; the keys of a dict are strings, so [0] is never one of them.
    On a string it is the first character (one byte here). *)
Definition py_getitem_0 (v : value) : result value :=
  match v with
  | VList (x :: _) => ok x
  | VList [] => raise IndexError
  | VStr (String c _) => ok (VStr (String c EmptyString))
  | VStr EmptyString => raise IndexError
  | VDict _ => raise (KeyError "0")
  | _ => raise TypeError
  end.

(** [v.values()], as the items whose values are iterated. *)
Definition py_values (v : value) : result (list (string * value)) :=
  match v with
  | VDict d => ok d
  | _ => raise AttributeError
  end.

(** Line 99: [trace_data['trace']['trace'].values()]. *)
Definition event_table (trace_data : value) : result (list (string * value)) :=
  do outer <- py_getitem trace_data "trace";
  do inner <- py_getitem outer "trace";
  py_values inner.

(** Lines 100-103: the list under a key, or the single event wrapped. *)
Definition events_under (v : value) : list value :=
  match v with
  | VList l => l
  | _ => [v]
  end.

(** Lines 98-107: collect all events in a single list. *)
Definition collect_events (table : list (string * value)) : list event :=
  fold_left
    (fun (event_list : list event) (item : string * value) =>
       let events := events_under (snd item) in
       fold_left
         (fun (event_list : list event) (ev : value) =>
            match ev with
            | VDict d =>
                match dict_lookup d "path" with
                | Some _ => event_list ++ [d]
                | None => event_list
                end
            | _ => event_list
            end)
         events event_list)
    table [].

(** [list.sort(key=...)] is stable: the keys are computed first, in list
    order, then elements are ordered by [<] on the keys and equal keys
    keep their order.  Insertion from the right gives that order. *)
Fixpoint insert_by_key {A} (x : Z * A) (l : list (Z * A)) : list (Z * A) :=
  match l with
  | [] => [x]
  | y :: l' =>
      if (fst x <=? fst y)%Z then x :: y :: l' else y :: insert_by_key x l'
  end.

Definition sort_by_key {A} (l : list (Z * A)) : list (Z * A) :=
  fold_right insert_by_key [] l.

(** [f] on every element, in order; stops at the first exception. *)
Fixpoint result_map {A B} (f : A -> result B) (l : list A) : result (list B) :=
  match l with
  | [] => ok []
  | x :: l' =>
      do y <- f x;
      do ys <- result_map f l';
      ok (y :: ys)
  end.

(** A loop with an accumulator whose body may raise. *)
Fixpoint result_fold {A S} (f : S -> A -> result S) (l : list A) (s : S) : result S :=
  match l with
  | [] => ok s
  | x :: l' =>
      do s' <- f s x;
      result_fold f l' s'
  end.

(** The six variations of lines 123-130, in order. *)
Definition variations (path : string) : list string :=
  [ py_replace "action/" "actions/" path;
    py_replace "actions/" "action/" path;
    py_replace "condition/" "conditions/" path;
    py_replace "conditions/" "condition/" path;
    py_replace "trigger/" "triggers/" path;
    py_replace "triggers/" "trigger/" path ].

(** Lines 131-134: the first variation that is a key of the mapping
    sets [alias] and ends the loop. *)
Fixpoint try_variations (alias_mapping : gmap string value) (vars : list string)
    (alias : value) : value :=
  match vars with
  | [] => alias
  | var :: rest =>
      match alias_mapping !! var with
      | Some v => v
      | None => try_variations alias_mapping rest alias
      end
  end.

(** Lines 120-136. *)
Definition resolve_alias (alias_mapping : gmap string value) (path : string) : value :=
  let alias := default VNone (alias_mapping !! path) in
  let alias :=
    if negb (py_truthy alias)
    then try_variations alias_mapping (variations path) alias
    else alias in
  if negb (py_truthy alias) then VStr path else alias.

(** Line 141: the marker of iteration [n]. *)
Definition iteration_marker (n : nat) : string :=
  nl +:+ "[ITERATION " +:+ pretty n +:+ "]".

Section TraceNormalizer.
Context `{PyRuntime}.

(** [datetime.fromisoformat(v)] on a value. *)
Definition parse_timestamp (v : value) : result datetime :=
  match v with
  | VStr s =>
      match fromisoformat s with
      | Some dt => ok dt
      | None => raise ValueError
      end
  | _ => raise TypeError
  end.

(** The sort key of line 110. *)
Definition sort_key (ev : event) : result Z :=
  match dict_lookup ev "timestamp" with
  | Some v => do dt <- parse_timestamp v; ok (timestamp_us dt)
  | None => ok 0%Z
  end.

(** Line 110: [event_list.sort(key=...)]. *)
Definition sort_events (event_list : list event) : result (list event) :=
  do keys <- result_map sort_key event_list;
  ok (map snd (sort_by_key (zip keys event_list))).

(** [ev['path']] as the string the rest of the loop needs: a list or a
    dict is unhashable in [alias_mapping.get], any other value that is
    not a string is never a key of the mapping and has no [replace]. *)
Definition event_path (ev : event) : result string :=
  match dict_lookup ev "path" with
  | Some (VStr p) => ok p
  | Some (VList _) | Some (VDict _) => raise TypeError
  | Some _ => raise AttributeError
  | None => raise (KeyError "path")
  end.

(** The display record of an event (lines 114-117 and 144-161). *)
Definition display_record (mapping : gmap string value) (tz : tzinfo) (ev : event)
    : result line :=
  do ts <- py_getitem (VDict ev) "timestamp";
  do dt <- parse_timestamp ts;
  do p <- event_path ev;
  let result := default (VDict []) (dict_lookup ev "result") in
  let err := dict_get ev "error" in
  ok {| timestamp := strftime_in tz dt;
        alias := resolve_alias mapping p;
        path := p;
        data :=
          match dict_lookup ev "changed_variables" with
          | Some cv => [("changed_variables", cv)]
          | None => []
          end ++
          (if py_truthy result then [("result", result)] else []);
        error := if py_truthy err then Some err else None |}.

(** The body of the loop of lines 113-163, on the loop's variables
    [current_iteration] and [output]. *)
Definition emit_event (mapping : gmap string value) (tz : tzinfo)
    (st : nat * list entry) (ev : event) : result (nat * list entry) :=
  let '(current_iteration, output) := st in
  do l <- display_record mapping tz ev;
  let '(current_iteration, output) :=
    if str_contains "repeat" (path l)
    then (S current_iteration,
          output ++ [Marker (iteration_marker (S current_iteration))])
    else (current_iteration, output) in
  ok (current_iteration, output ++ [Line l]).

(** Lines 172-193. *)
Definition format_line (l : line) : string :=
  let text := timestamp l +:+ " | " +:+ py_str (alias l) +:+ " | " +:+ path l in
  let details :=
    fold_left
      (fun (details : list string) (item : string * value) =>
         match snd item with
         | VDict _ => details ++ [fst item +:+ ": " +:+ json_dumps (snd item)]
         | v => details ++ [fst item +:+ ": " +:+ py_str v]
         end)
      (data l) [] in
  let text :=
    match details with
    | [] => text
    | _ => text +:+ nl +:+ "  " +:+ str_join (nl +:+ "  ") details
    end in
  match error l with
  | Some e => text +:+ nl +:+ "  [ERROR] " +:+ py_str e
  | None => text
  end.

Definition format_output (processed_data : list entry) : list string :=
  fold_left
    (fun (output : list string) (e : entry) =>
       match e with
       | Marker s => output ++ [s]
       | Line l => output ++ [format_line l]
       end)
    processed_data [].

(** Line 91. *)
Definition select_timezone (timezone : option string) : result tzinfo :=
  let name :=
    match timezone with
    | Some tzname => if negb (String.eqb tzname "") then tzname else "UTC"
    | None => "UTC"
    end in
  match pytz_timezone name with
  | Some tz => ok tz
  | None => raise UnknownTimeZoneError
  end.

(** Lines 91-163 on the parsed trace document: the output list. *)
Definition normalize (mapping : gmap string value) (trace_data : value)
    (timezone : option string) : result (list entry) :=
  do tz <- select_timezone timezone;
  do table <- event_table trace_data;
  let event_list := collect_events table in
  do event_list <- sort_events event_list;
  do st <- result_fold (emit_event mapping tz) event_list (O, []);
  ok (snd st).

(** [process_trace], from the document [json.load] returned.  The
    mapping is read from the world; the only write is the append of
    lines 165-168, made when [output_file] is truthy. *)
Definition process_trace (trace_data : value) (output_file : option string)
    (timezone : option string) (w : world) : result (list entry) * world :=
  match normalize (alias_mapping w) trace_data timezone with
  | inl e => (inl e, w)
  | inr output =>
      match output_file with
      | Some name =>
          if negb (String.eqb name "")
          then (inr output,
                append_file name (str_join nl (format_output output)) w)
          else (inr output, w)
      | None => (inr output, w)
      end
  end.
End TraceNormalizer.

(** ** The alias mapper on documents with keys of any kind

    [yaml.safe_load] also gives dicts whose keys are [None], booleans or
    integers.  [map_steps] passes such a key on as [base] and as
    [nearest_alias_path], where [len] and slicing need a string; the
    module below follows the code on these documents, with the exceptions
    it can raise.  The mapping is a Python dict, so [True] and [1], and
    [False] and [0], are the same key of it. *)

Module Keyed.

(** A key of a dict, which is also what a scalar value can be. *)
Inductive key : Type :=
  | KNone
  | KBool (b : bool)
  | KInt (z : Z)
  | KStr (s : string).

#[warnings="-register-all"]
Inductive yaml : Type :=
  | YScalar (k : key)
  | YList (l : list yaml)
  | YDict (d : list (key * yaml)).

#[global] Instance key_eq_dec : EqDecision key.
Proof. solve_decision. Defined.

#[global] Instance key_countable : Countable key :=
  inj_countable'
    (fun k : key =>
       match k with
       | KNone => inl (inl tt)
       | KBool b => inl (inr b)
       | KInt z => inr (inl z)
       | KStr s => inr (inr s)
       end)
    (fun x : (unit + bool) + (Z + string) =>
       match x with
       | inl (inl _) => KNone
       | inl (inr b) => KBool b
       | inr (inl z) => KInt z
       | inr (inr s) => KStr s
       end)
    (fun k : key => match k with KNone | KBool _ | KInt _ | KStr _ => eq_refl end).

(** [bool(k)] *)
Definition key_truthy (k : key) : bool :=
  match k with
  | KNone => false
  | KBool b => b
  | KInt z => negb (z =? 0)%Z
  | KStr s => negb (String.eqb s "")
  end.

Definition truthy (v : yaml) : bool :=
  match v with
  | YScalar k => key_truthy k
  | YList l => match l with [] => false | _ => true end
  | YDict d => match d with [] => false | _ => true end
  end.

(** [str(k)] *)
Definition key_str (k : key) : string :=
  match k with
  | KNone => "None"
  | KBool true => "True"
  | KBool false => "False"
  | KInt z => pretty z
  | KStr s => s
  end.

(** The key as the mapping hashes and compares it. *)
Definition dict_key (k : key) : key :=
  match k with
  | KBool true => KInt 1
  | KBool false => KInt 0
  | _ => k
  end.

(** [d.get('alias')]: only a string key can be equal to ['alias']. *)
Fixpoint get_alias (d : list (key * yaml)) : yaml :=
  match d with
  | [] => YScalar KNone
  | (KStr k, v) :: d' => if String.eqb k "alias" then v else get_alias d'
  | _ :: d' => get_alias d'
  end.

(** [len(k)]: a key that is not a string has no length. *)
Definition key_len (k : key) : result nat :=
  match k with
  | KStr s => ok (String.length s)
  | _ => raise TypeError
  end.

(** [k[n:].lstrip('/')]: a key that is not a string cannot be sliced. *)
Definition key_tail (k : key) (n : nat) : result string :=
  match k with
  | KStr s => ok (lstrip_slash (str_drop n s))
  | _ => raise TypeError
  end.

Section Mapper.
(** [repr] of a list or a dict, from the Python runtime. *)
Variable repr : yaml -> string.

Definition yaml_str (v : yaml) : string :=
  match v with
  | YScalar k => key_str k
  | _ => repr v
  end.

(** Lines 51-56 and 69-73, for a node filed under [node] (a string in
    the list branch, [base] itself in the dict branch). *)
Definition inherited_label (node : key) (nearest_alias : yaml)
    (nearest_alias_path : option key) : result yaml :=
  if truthy nearest_alias then
    do path_sublevel <-
      match nearest_alias_path with
      | Some p =>
          if key_truthy p
          then (do n <- key_len p; key_tail node n)
          else ok (key_str node)
      | None => ok (key_str node)
      end;
    ok (YScalar (KStr (yaml_str nearest_alias +:+ "//" +:+ path_sublevel)))
  else ok (YScalar node).

Fixpoint map_steps (steps : yaml) (base : key) (mapping : gmap key yaml)
    (nearest_alias : yaml) (nearest_alias_path : option key) {struct steps}
    : result (gmap key yaml) :=
  match steps with
  | YList l =>
      do final <-
        result_fold
          (fun (acc : nat * gmap key yaml) (step : yaml) =>
             let '(idx, mapping) := acc in
             let path :=
               if key_truthy base
               then key_str base +:+ "/" +:+ pretty idx
               else "sequence/" +:+ pretty idx in
             let local_alias :=
               match step with YDict d => get_alias d | _ => YScalar KNone end in
             do context <-
               (if truthy local_alias
                then ok (<[KStr path := local_alias]> mapping, local_alias, Some (KStr path))
                else
                  do label <- inherited_label (KStr path) nearest_alias nearest_alias_path;
                  ok (<[KStr path := label]> mapping, nearest_alias, nearest_alias_path));
             let '(mapping, inherited_alias, inherited_alias_path) := context in
             do mapping <-
               match step with
               | YDict d =>
                   result_fold
                     (fun (mapping : gmap key yaml) (item : key * yaml) =>
                        match item with
                        | (k, v) =>
                            map_steps v (KStr (path +:+ "/" +:+ key_str k)) mapping
                              inherited_alias inherited_alias_path
                        end)
                     d mapping
               | _ => ok mapping
               end;
             ok (S idx, mapping))
          l (O, mapping);
      ok (snd final)
  | YDict d =>
      let local_alias := get_alias d in
      do context <-
        (if truthy local_alias && key_truthy base
         then ok (<[dict_key base := local_alias]> mapping, local_alias, Some base)
         else
           do mapping <-
             (if truthy nearest_alias && key_truthy base
              then
                do label <- inherited_label base nearest_alias nearest_alias_path;
                ok (<[dict_key base := label]> mapping)
              else if key_truthy base
              then ok (<[dict_key base := YScalar base]> mapping)
              else ok mapping);
           ok (mapping, nearest_alias, nearest_alias_path));
      let '(mapping, inherited_alias, inherited_alias_path) := context in
      result_fold
        (fun (mapping : gmap key yaml) (item : key * yaml) =>
           match item with
           | (k, v) =>
               map_steps v
                 (if key_truthy base then KStr (key_str base +:+ "/" +:+ key_str k) else k)
                 mapping inherited_alias inherited_alias_path
           end)
        d mapping
  | YScalar _ => ok mapping
  end.

Definition is_container (v : yaml) : bool :=
  match v with
  | YScalar _ => false
  | _ => true
  end.

Definition is_sequence_key (k : key) : bool :=
  match k with
  | KStr s => String.eqb s "sequence"
  | _ => false
  end.

(** Lines 83-87, from the document [yaml.safe_load] returned. *)
Definition load_automation (automation : yaml) : result (gmap key yaml) :=
  match automation with
  | YDict items =>
      result_fold
        (fun (mapping : gmap key yaml) (item : key * yaml) =>
           match item with
           | (k, v) =>
               if is_sequence_key k || is_container v
               then map_steps v k mapping (YScalar KNone) None
               else ok mapping
           end)
        items ∅
  | _ => raise AttributeError
  end.
End Mapper.


(** [repr] of documents whose strings hold no quote, backslash or
    control character. *)
Fixpoint plain_repr (v : yaml) : string :=
  match v with
  | YScalar (KStr s) => "'" +:+ s +:+ "'"
  | YScalar k => key_str k
  | YList l => "[" +:+ str_join ", " (map plain_repr l) +:+ "]"
  | YDict d =>
      "{" +:+
      str_join ", "
        (map (fun item : key * yaml =>
                match item with
                | (KStr k, x) => "'" +:+ k +:+ "': " +:+ plain_repr x
                | (k, x) => key_str k +:+ ": " +:+ plain_repr x
                end) d)
      +:+ "}"
  end.

End Keyed.

(** ** The identity check of [main] (lines 219-248) *)

(** [a == b] on values: [True] and [False] compare as 1 and 0, lists
    element by element, dicts key by key whatever the order. *)
Fixpoint py_eq (a b : value) {struct a} : bool :=
  match a, b with
  | VNone, VNone => true
  | VBool x, VBool y => Bool.eqb x y
  | VBool x, VInt y => ((if x then 1 else 0) =? y)%Z
  | VInt x, VBool y => (x =? (if y then 1 else 0))%Z
  | VInt x, VInt y => (x =? y)%Z
  | VStr x, VStr y => String.eqb x y
  | VList xs, VList ys =>
      (fix all2 (xs ys : list value) {struct xs} : bool :=
         match xs, ys with
         | [], [] => true
         | x :: xs', y :: ys' => py_eq x y && all2 xs' ys'
         | _, _ => false
         end) xs ys
  | VDict xs, VDict ys =>
      (length xs =? length ys)%nat &&
      forallb
        (fun item : string * value =>
           match item with
           | (k, v) =>
               match dict_lookup ys k with
               | Some w => py_eq v w
               | None => false
               end
           end)
        xs
  | _, _ => false
  end.

Section Main.
Context `{PyRuntime}.

(** Lines 226-227, the body of the [try]. *)
Definition lookup_friendly_name (trace_data : value) : result value :=
  do outer <- py_getitem trace_data "trace";
  do inner <- py_getitem outer "trace";
  do triggers <- py_getitem inner "trigger/0";
  do trigger0 <- py_getitem_0 triggers;
  do changed <- py_getitem trigger0 "changed_variables";
  do this <- py_getitem changed "this";
  do attributes <- py_getitem this "attributes";
  py_getitem attributes "friendly_name".

(** Lines 224-229: [except Exception: pass] leaves [None]. *)
Definition find_friendly_name (trace_data : value) : value :=
  match lookup_friendly_name trace_data with
  | inr v => v
  | inl _ => VNone
  end.

(** The text of line 233. *)
Definition alert_text (main_alias friendly_name : value) : string :=
  "[ALERT] The main alias from YAML ('" +:+ py_str main_alias +:+
  "') is different from the friendly_name in the trace ('" +:+
  py_str friendly_name +:+
  "'). Make sure the trace matches the provided YAML." +:+ nl.

(** Lines 231-233. *)
Definition alert_name (main_alias friendly_name : value) : string :=
  if negb (py_truthy friendly_name) || negb (py_truthy main_alias)
     || negb (py_eq friendly_name main_alias)
  then alert_text main_alias friendly_name
  else "".

(** Lines 243-248; [yaml_structure] and [mapping_structure] are the
    texts [pprint.pformat] returned. *)
Definition output_structure (params_summary alert yaml_structure
    mapping_structure : string) : string :=
  params_summary +:+ alert +:+
  nl +:+ "[LOADED YAML - FULL STRUCTURE]" +:+ nl +:+ yaml_structure +:+
  nl +:+ nl +:+ "[IDENTIFIED ALIAS MAPPING]" +:+ nl +:+ mapping_structure.

(** Lines 219-248 of [main]: the alert and the report that carries it.
    [automation_yaml.get] needs a dict. *)
Definition main_report (params_summary yaml_structure mapping_structure : string)
    (automation_yaml trace_data : value) : result (string * string) :=
  let friendly_name := find_friendly_name trace_data in
  match automation_yaml with
  | VDict d =>
      let main_alias := dict_get d "alias" in
      let alert := alert_name main_alias friendly_name in
      ok (alert,
          output_structure params_summary alert yaml_structure mapping_structure)
  | _ => raise AttributeError
  end.
End Main.

(** ** A reference runtime

    One concrete [PyRuntime], to run the model on traces: timestamps in
    the layout Home Assistant writes, [YYYY-MM-DDTHH:MM:SS.ffffff+00:00],
    shown in UTC; [fromisoformat] refuses every other layout.  Containers
    print with plain quoting, which is what Python prints when their
    strings hold no quote, backslash or control character. *)

Module Reference.

Definition digit_val (c : ascii) : option Z :=
  let n := Z.of_nat (nat_of_ascii c) in
  if ((48 <=? n) && (n <=? 57))%Z then Some (n - 48)%Z else None.

Fixpoint digits_from (acc : Z) (s : string) : option Z :=
  match s with
  | EmptyString => Some acc
  | String c s' =>
      match digit_val c with
      | Some d => digits_from (10 * acc + d)%Z s'
      | None => None
      end
  end.

Definition field (start len : nat) (s : string) : option Z :=
  let f := String.substring start len s in
  if (String.length f =? len)%nat then digits_from 0%Z f else None.

Definition is_leap (y : Z) : bool :=
  ((y mod 4 =? 0) && (negb (y mod 100 =? 0) || (y mod 400 =? 0)))%Z.

Definition days_in_month (y m : Z) : Z :=
  if (m =? 2)%Z then (if is_leap y then 29 else 28)%Z
  else if ((m =? 4) || (m =? 6) || (m =? 9) || (m =? 11))%Z then 30%Z
  else 31%Z.

(** Days from 1970-01-01 to the civil date [y]-[m]-[d]. *)
Definition days_from_civil (y m d : Z) : Z :=
  let y' := (if m <=? 2 then y - 1 else y)%Z in
  let era := (y' / 400)%Z in
  let yoe := (y' - era * 400)%Z in
  let doy := ((153 * (if 2 <? m then m - 3 else m + 9) + 2) / 5 + d - 1)%Z in
  let doe := (yoe * 365 + yoe / 4 - yoe / 100 + doy)%Z in
  (era * 146097 + doe - 719468)%Z.

(** A parsed timestamp: microseconds since the epoch, and the date and
    the time of day as written. *)
Record stamp : Type := { micros : Z; date_text : string; time_text : string }.

Definition parse_iso (s : string) : option stamp :=
  if negb (String.length s =? 32)%nat then None else
  if negb (String.eqb (String.substring 4 1 s) "-"
           && String.eqb (String.substring 7 1 s) "-"
           && String.eqb (String.substring 10 1 s) "T"
           && String.eqb (String.substring 13 1 s) ":"
           && String.eqb (String.substring 16 1 s) ":"
           && String.eqb (String.substring 19 1 s) "."
           && String.eqb (String.substring 26 6 s) "+00:00") then None else
  match field 0 4 s, field 5 2 s, field 8 2 s,
        field 11 2 s, field 14 2 s, field 17 2 s, field 20 6 s with
  | Some y, Some m, Some d, Some hh, Some mi, Some ss, Some us =>
      if ((1000 <=? y) && (1 <=? m) && (m <=? 12) && (1 <=? d)
          && (d <=? days_in_month y m) && (hh <? 24) && (mi <? 60)
          && (ss <? 60))%Z
      then Some {| micros :=
                     ((((days_from_civil y m d * 24 + hh) * 60 + mi) * 60 + ss)
                      * 1000000 + us)%Z;
                   date_text := String.substring 0 10 s;
                   time_text := String.substring 11 15 s |}
      else None
  | _, _, _, _, _, _, _ => None
  end.

Definition render_utc (_ : unit) (t : stamp) : string :=
  date_text t +:+ " " +:+ time_text t +:+ " UTC".

Definition timezone_by_name (name : string) : option unit :=
  if String.eqb name "UTC" then Some tt else None.

Fixpoint repr (v : value) : string :=
  match v with
  | VNone => "None"
  | VBool true => "True"
  | VBool false => "False"
  | VInt z => pretty z
  | VStr s => "'" +:+ s +:+ "'"
  | VList l => "[" +:+ str_join ", " (map repr l) +:+ "]"
  | VDict d =>
      "{" +:+
      str_join ", "
        (map (fun item : string * value =>
                match item with
                | (k, x) => "'" +:+ k +:+ "': " +:+ repr x
                end) d)
      +:+ "}"
  end.

Fixpoint spaces (n : nat) : string :=
  match n with
  | O => ""
  | S n' => " " +:+ spaces n'
  end.

Definition quoted (s : string) : string :=
  String (ascii_of_nat 34) EmptyString +:+ s +:+ String (ascii_of_nat 34) EmptyString.

(** [json.dumps(v, indent=2)] with the text at nesting depth [depth]. *)
Fixpoint dumps (depth : nat) (v : value) : string :=
  match v with
  | VNone => "null"
  | VBool true => "true"
  | VBool false => "false"
  | VInt z => pretty z
  | VStr s => quoted s
  | VList [] => "[]"
  | VList l =>
      "[" +:+ nl +:+ spaces (2 * S depth) +:+
      str_join ("," +:+ nl +:+ spaces (2 * S depth)) (map (dumps (S depth)) l)
      +:+ nl +:+ spaces (2 * depth) +:+ "]"
  | VDict [] => "{}"
  | VDict d =>
      "{" +:+ nl +:+ spaces (2 * S depth) +:+
      str_join ("," +:+ nl +:+ spaces (2 * S depth))
        (map (fun item : string * value =>
                match item with
                | (k, x) => quoted k +:+ ": " +:+ dumps (S depth) x
                end) d)
      +:+ nl +:+ spaces (2 * depth) +:+ "}"
  end.

Definition runtime : PyRuntime := {|
  datetime := stamp;
  tzinfo := unit;
  pytz_timezone := timezone_by_name;
  pytz_timezone_UTC := ex_intro _ tt eq_refl;
  fromisoformat := parse_iso;
  timestamp_us := micros;
  strftime_in := render_utc;
  py_repr := repr;
  json_dumps := dumps 0
|}.

End Reference.

(** ** Example documents *)

Module Examples.

(** An event with a path and a timestamp. *)
Definition stamped (p t : string) : value :=
  VDict [("path", VStr p); ("timestamp", VStr t)].

(** The trace document around an event table. *)
Definition trace_of (table : list (string * value)) : value :=
  VDict [("trace", VDict [("trace", VDict table)])].

Definition T0 : string := "2024-05-01T10:00:00.000001+00:00".
Definition T1 : string := "2024-05-01T10:00:00.000002+00:00".
Definition T2 : string := "2024-05-01T10:00:01.000000+00:00".

Definition empty_world : world := {| alias_mapping := ∅; files := ∅ |}.

Definition logged_world : world :=
  {| alias_mapping := {["actions/1" := VStr "Turn on light"]};
     files := {["trace.log" := "header"]} |}.

(** One list of two events, the second without a timestamp. *)
Definition trace_missing_timestamp : value :=
  trace_of [("action/0",
             VList [stamped "action/0" T1; VDict [("path", VStr "action/0")]])].

(** One event on a [repeat] path. *)
Definition trace_one_repeat : value :=
  trace_of [("action/0/repeat/sequence/0",
             VList [stamped "action/0/repeat/sequence/0" T0])].

(** Two events on a [repeat] path, stored at times T2 and T0, and a bare
    event on another path at T1. *)
Definition trace_repeat : value :=
  trace_of [("action/0/repeat/sequence/0",
             VList [stamped "action/0/repeat/sequence/0" T2;
                    stamped "action/0/repeat/sequence/0" T0]);
            ("action/1", stamped "action/1" T1)].

(** Three events, the first two with the same timestamp. *)
Definition table_equal_timestamps : list (string * value) :=
  [("action/1", VList [stamped "action/1" T1]);
   ("action/0", VList [stamped "action/0" T1; stamped "action/2" T2])].

Definition trace_equal_timestamps : value := trace_of table_equal_timestamps.

(** A trace whose [trigger/0] entry is a bare event, not a list. *)
Definition trace_bare_trigger : value :=
  trace_of [("trigger/0",
             VDict [("path", VStr "trigger/0");
                    ("changed_variables",
                     VDict [("this",
                             VDict [("attributes",
                                     VDict [("friendly_name",
                                             VStr "Morning lights")])])])])].

(** A step with an alias and, below it, a list with one scalar element. *)
Definition doc_inherited : value :=
  VDict [("action",
          VList [VDict [("alias", VStr "A"); ("then", VList [VInt 3])]])].

End Examples.

(** ** What the specification's wording would give, where it differs *)

(** [old] replaced by [new] at its first occurrence only. *)
Fixpoint replace_first (old new s : string) : string :=
  match s with
  | EmptyString => EmptyString
  | String c s' =>
      if String.prefix old s
      then new +:+ str_drop (String.length old) s
      else String c (replace_first old new s')
  end.

(** The marker text as the specification writes it. *)
Definition spec_marker (n : nat) : string :=
  "[ITERATION " +:+ pretty n +:+ "]".

(** The records [ls], each one with path containing [repeat] preceded by
    the marker of the next iteration; [n] iterations came before. *)
Fixpoint with_markers (n : nat) (ls : list line) : list entry :=
  match ls with
  | [] => []
  | l :: rest =>
      if str_contains "repeat" (path l)
      then Marker (iteration_marker (S n)) :: Line l :: with_markers (S n) rest
      else Line l :: with_markers n rest
  end.

(** The display records of an output list, markers left out. *)
Fixpoint records (output : list entry) : list line :=
  match output with
  | [] => []
  | Marker _ :: rest => records rest
  | Line l :: rest => l :: records rest
  end.

(** The events one entry of the trace table contributes, in order. *)
Definition events_of (v : value) : list event :=
  flat_map
    (fun ev : value =>
       match ev with
       | VDict d =>
           match dict_lookup d "path" with
           | Some _ => [d]
           | None => []
           end
       | _ => []
       end)
    (events_under v).

(** No dict of the document, at any depth, has an [alias] key. *)
Fixpoint has_no_alias (v : value) : bool :=
  match v with
  | VList l => forallb has_no_alias l
  | VDict d =>
      match dict_lookup d "alias" with
      | Some _ => false
      | None => forallb (fun item : string * value => has_no_alias (snd item)) d
      end
  | _ => true
  end.

(** Every label of the mapping is the path it is filed under. *)
Definition identity_labels (m : gmap string value) : Prop :=
  forall (p : string) (v : value), m !! p = Some v -> v = VStr p.

(** ** Induction on values *)

Section ValueInduction.
Variable P : value -> Prop.
Hypothesis HNone : P VNone.
Hypothesis HBool : forall b, P (VBool b).
Hypothesis HInt : forall z, P (VInt z).
Hypothesis HStr : forall s, P (VStr s).
Hypothesis HList : forall l, Forall P l -> P (VList l).
Hypothesis HDict : forall d, Forall (fun item => P (snd item)) d -> P (VDict d).

Fixpoint value_nested_ind (v : value) : P v :=
  match v with
  | VNone => HNone
  | VBool b => HBool b
  | VInt z => HInt z
  | VStr s => HStr s
  | VList l =>
      HList l
        ((fix all (l : list value) : Forall P l :=
            match l with
            | [] => List.Forall_nil P
            | x :: l' => List.Forall_cons P x l' (value_nested_ind x) (all l')
            end) l)
  | VDict d =>
      HDict d
        ((fix all (d : list (string * value)) : Forall (fun item => P (snd item)) d :=
            match d with
            | [] => List.Forall_nil _
            | item :: d' =>
                List.Forall_cons (fun item => P (snd item)) item d'
                  (value_nested_ind (snd item)) (all d')
            end) d)
  end.
End ValueInduction.

(** What [map_steps] keeps on a subtree without aliases, entered without
    an inherited alias. *)
Definition keeps_identity `{PyRuntime} (steps : value) : Prop :=
  has_no_alias steps = true ->
  forall base m na nap,
    py_truthy na = false ->
    identity_labels m -> identity_labels (map_steps steps base m na nap).

(** The same for the values of a dict, which the list branch of
    [map_steps] enters without going through the dict branch. *)
Definition items_keep_identity `{PyRuntime} (steps : value) : Prop :=
  match steps with
  | VDict d => Forall (fun item => keeps_identity (snd item)) d
  | _ => True
  end.

(** The order the sort establishes: ascending keys. *)
Definition key_le {A : Type} (x y : Z * A) : Prop := (fst x <= fst y)%Z.

(** How many of the records have a path containing [repeat]. *)
Definition repeats (ls : list line) : nat :=
  length (List.filter (fun l => str_contains "repeat" (path l)) ls).

(** ** The paths of the tree walk *)

Section IndexedLists.
Context {A B : Type}.
Variable f : nat -> A -> list B.

(** [f idx x] for the elements [x] of [l], numbered from [idx], in one list. *)
Fixpoint flat_imap (idx : nat) (l : list A) : list B :=
  match l with
  | [] => []
  | x :: rest => f idx x ++ flat_imap (S idx) rest
  end.
End IndexedLists.

(** Line 44: the path of element [idx] of a list at [base]. *)
Definition element_path (base : string) (idx : nat) : string :=
  if negb (String.eqb base "")
  then base +:+ "/" +:+ pretty idx
  else "sequence/" +:+ pretty idx.

(** Line 77: the path of the value under [key] in a dict at [base]. *)
Definition member_path (base key : string) : string :=
  if negb (String.eqb base "") then base +:+ "/" +:+ key else key.

(** The paths [map_steps] visits in [steps] from [base], whatever the
    aliases are: each element of a list, each dict reached with a
    non-empty path, and below a dict the values under its keys. *)
Fixpoint walk_paths (steps : value) (base : string) {struct steps} : list string :=
  match steps with
  | VList l =>
      flat_imap
        (fun (idx : nat) (step : value) =>
           element_path base idx ::
           match step with
           | VDict d =>
               flat_map
                 (fun item : string * value =>
                    walk_paths (snd item) (element_path base idx +:+ "/" +:+ fst item))
                 d
           | _ => []
           end)
        O l
  | VDict d =>
      (if negb (String.eqb base "") then [base] else []) ++
      flat_map
        (fun item : string * value => walk_paths (snd item) (member_path base (fst item)))
        d
  | _ => []
  end.

(** The paths [load_automation] visits in the items of a document. *)
Definition document_paths (items : list (string * value)) : list string :=
  flat_map
    (fun item : string * value =>
       if String.eqb (fst item) "sequence" || is_container (snd item)
       then walk_paths (snd item) (fst item)
       else [])
    items.

(** Every label of the mapping is truthy. *)
Definition truthy_labels (m : gmap string value) : Prop :=
  forall (p : string) (v : value), m !! p = Some v -> py_truthy v = true.

(** ** [get_timezone] and [main] *)

(** Lines 30-36; [local_zone] is what [str(tzlocal.get_localzone())]
    returns or raises. *)
Definition get_timezone (cli_timezone : option string) (local_zone : result string)
    : string :=
  let fallback := match local_zone with inr zone => zone | inl _ => "UTC" end in
  match cli_timezone with
  | Some name => if negb (String.eqb name "") then name else fallback
  | None => fallback
  end.

(** Lines 239-241. *)
Definition params_summary (yaml_file trace_file : string) (output_file : option string)
    (timezone : string) : string :=
  "[PARAMETERS] yaml_file=" +:+ yaml_file +:+ " | trace_log=" +:+ trace_file +:+
  " | output=" +:+
  match output_file with
  | Some name => if negb (String.eqb name "") then name else "[stdout]"
  | None => "[stdout]"
  end +:+
  " | timezone=" +:+ timezone +:+ nl.

(** [open(name, 'w').write(text)] *)
Definition write_file (name text : string) (fs : gmap string string)
    : gmap string string :=
  <[name := text]> fs.

(** What [main] sends to the console, call by call: [print] of a text,
    of a text between [Fore.RED] or [Fore.CYAN] and [Style.RESET_ALL], and
    [rich.print] of a marked-up text, of the document or of the mapping. *)
Inductive printed : Type :=
  | Plain (s : string)
  | Red (s : string)
  | Cyan (s : string)
  | Rich (markup : string)
  | RichDocument (v : value)
  | RichMapping (m : gmap string value).

(** What ends [main] early: an exception of the code it calls, or the use
    of a name that an [import] which failed has left unbound. *)
Inductive main_exn : Type :=
  | Raised (e : exn)
  | UnboundLocalError (name : string).

(** The optional packages and the local zone of the machine. *)
Record environment : Type := {
  colorama_installed : bool;
  rich_installed : bool;
  local_zone : result string
}.

Section MainProgram.
Context `{PyRuntime}.

(** Lines 250-274: the report on the console.  [Fore] is bound only when
    the import of colorama succeeded; [use_rich] needs both packages. *)
Definition print_report (env : environment) (summary alert yaml_structure
    mapping_structure : string) (automation_yaml : value)
    (mapping : gmap string value) : (main_exn + unit) * list printed :=
  if colorama_installed env && rich_installed env then
    (inr tt,
     [Rich ("[bold cyan]" +:+ summary +:+ "[/bold cyan]")] ++
     (if negb (String.eqb alert "")
      then [Rich ("[bold red]" +:+ alert +:+ "[/bold red]")] else []) ++
     [Rich "[bold yellow][LOADED YAML - FULL STRUCTURE][/bold yellow]";
      RichDocument automation_yaml;
      Rich (nl +:+ "[bold yellow][IDENTIFIED ALIAS MAPPING][/bold yellow]");
      RichMapping mapping])
  else if negb (String.eqb alert "") && negb (colorama_installed env) then
    (inl (UnboundLocalError "Fore"), [Plain summary])
  else
    (inr tt,
     [Plain summary] ++
     (if negb (String.eqb alert "") then [Red alert] else []) ++
     [Plain "[LOADED YAML - FULL STRUCTURE]";
      Plain yaml_structure;
      Plain (nl +:+ "[IDENTIFIED ALIAS MAPPING]");
      Plain mapping_structure]).

(** Lines 283-296: the formatted lines on the console. *)
Definition print_lines (env : environment) (formatted_output : list string)
    : list printed :=
  if colorama_installed env then
    map (fun text =>
           if str_contains "[ERROR]" text then Red text
           else if str_contains "[ITERATION" text then Cyan text
           else Plain text)
        formatted_output
  else [Plain (str_join nl formatted_output)].

(** [main] after the arguments are parsed, from the documents the two
    files hold; [yaml_structure] and [mapping_structure] are the texts
    [pprint.pformat] returns.  With a destination, the report is written
    over it and [process_trace], after the timezone of its line 91, reads
    the trace file again: when that file is the destination, it now holds
    the report, which is not JSON. *)
Definition main (env : environment) (yaml_file trace_file : string)
    (output_file cli_timezone : option string)
    (automation_yaml trace_data : value)
    (yaml_structure mapping_structure : string) (fs : gmap string string)
    : (main_exn + unit) * gmap string string * list printed :=
  let timezone := get_timezone cli_timezone (local_zone env) in
  match load_automation automation_yaml with
  | inl e => (inl (Raised e), fs, [])
  | inr mapping =>
      let summary := params_summary yaml_file trace_file output_file timezone in
      match main_report summary yaml_structure mapping_structure
              automation_yaml trace_data with
      | inl e => (inl (Raised e), fs, [])
      | inr (alert, structure) =>
          match output_file with
          | Some name =>
              if negb (String.eqb name "") then
                let fs1 := write_file name (structure +:+ nl +:+ nl) fs in
                let shown :=
                  [Plain (nl +:+ "[YAML and mapping loaded. Output will be saved to file, not displayed on screen.]")] in
                if String.eqb name trace_file then
                  match select_timezone (Some timezone) with
                  | inl e => (inl (Raised e), fs1, shown)
                  | inr _ => (inl (Raised ValueError), fs1, shown)
                  end
                else
                  match process_trace trace_data (Some name) (Some timezone)
                          {| alias_mapping := mapping; files := fs1 |} with
                  | (inl e, w) => (inl (Raised e), files w, shown)
                  | (inr _, w) => (inr tt, files w, shown)
                  end
              else
                match print_report env summary alert yaml_structure mapping_structure
                        automation_yaml mapping with
                | (inl e, shown) => (inl e, fs, shown)
                | (inr _, shown) =>
                    match process_trace trace_data None (Some timezone)
                            {| alias_mapping := mapping; files := fs |} with
                    | (inl e, w) => (inl (Raised e), files w, shown)
                    | (inr data, w) =>
                        (inr tt, files w, shown ++ print_lines env (format_output data))
                    end
                end
          | None =>
              match print_report env summary alert yaml_structure mapping_structure
                      automation_yaml mapping with
              | (inl e, shown) => (inl e, fs, shown)
              | (inr _, shown) =>
                  match process_trace trace_data None (Some timezone)
                          {| alias_mapping := mapping; files := fs |} with
                  | (inl e, w) => (inl (Raised e), files w, shown)
                  | (inr data, w) =>
                      (inr tt, files w, shown ++ print_lines env (format_output data))
                  end
              end
          end
      end
  end.
End MainProgram.

(** The keys after [map_steps] are the keys before and the walk's paths. *)
Definition adds_walk_paths `{PyRuntime} (steps : value) : Prop :=
  forall base m na nap,
    dom (map_steps steps base m na nap) = dom m ∪ list_to_set (walk_paths steps base).

(** A property of mappings that every write of [map_steps] keeps: a
    truthy label filed under a non-empty path. *)
Definition kept_by_writes (I : gmap string value -> Prop) : Prop :=
  forall (m : gmap string value) (p : string) (v : value),
    p <> "" -> py_truthy v = true -> I m -> I (<[p := v]> m).

Definition keeps `{PyRuntime} (I : gmap string value -> Prop) (steps : value) : Prop :=
  forall base m na nap, I m -> I (map_steps steps base m na nap).



(** Two events without a timestamp under two keys. *)
Definition table_without_timestamps : list (string * value) :=
  [("action/0", VList [VDict [("path", VStr "action/0")]]);
   ("action/1", VDict [("path", VStr "action/1")])].

(** Events stored at T2 and T1 under one key and at T1 under another. *)
Definition table_with_ties : list (string * value) :=
  [("action/0", VList [Examples.stamped "action/0" Examples.T2;
                       Examples.stamped "action/0" Examples.T1]);
   ("action/1", Examples.stamped "action/1" Examples.T1)].

(** A trace whose [trigger/0] entry is a bare event with a timestamp. *)
Definition trace_bare_trigger_stamped : value :=
  Examples.trace_of
    [("trigger/0",
      VDict [("path", VStr "trigger/0");
             ("timestamp", VStr Examples.T0);
             ("changed_variables",
              VDict [("this",
                      VDict [("attributes",
                              VDict [("friendly_name", VStr "Morning lights")])])])])].

(** A document with string keys as a document with keys of any kind,
    and a mapping with it. *)
Fixpoint embed (v : value) : Keyed.yaml :=
  match v with
  | VNone => Keyed.YScalar Keyed.KNone
  | VBool b => Keyed.YScalar (Keyed.KBool b)
  | VInt z => Keyed.YScalar (Keyed.KInt z)
  | VStr s => Keyed.YScalar (Keyed.KStr s)
  | VList l => Keyed.YList (map embed l)
  | VDict d =>
      Keyed.YDict
        (map (fun item : string * value => (Keyed.KStr (fst item), embed (snd item))) d)
  end.

Definition embed_mapping (m : gmap string value) : gmap Keyed.key Keyed.yaml :=
  kmap Keyed.KStr (embed <$> m).

(** [Keyed.map_steps] on an embedded subtree does what [map_steps] does. *)
Definition agrees `{PyRuntime} (repr : Keyed.yaml -> string) (steps : value) : Prop :=
  forall (base : string) (m : gmap string value) (na : value) (nap : option string),
    Keyed.map_steps repr (embed steps) (Keyed.KStr base) (embed_mapping m) (embed na)
      (Keyed.KStr <$> nap)
    = ok (embed_mapping (map_steps steps base m na nap)).

(** * Theorems *)

(** ** The result monad *)

Lemma rbind_ok {A B} (r : result A) (k : A -> result B) (b : B) :
  rbind r k = inr b -> exists a, r = inr a /\ k a = inr b.
Proof.
  destruct r as [e | a]; simpl; intros Hk.
  - discriminate.
  - exists a. split; [reflexivity | exact Hk].
Qed.

Lemma rbind_raise {A B} (r : result A) (k : A -> result B) (e : exn) :
  r = inl e -> rbind r k = inl e.
Proof. intros ->. reflexivity. Qed.

Ltac inv_bind H :=
  let a := fresh "a" in
  let Ha := fresh "Ha" in
  apply rbind_ok in H; destruct H as (a & Ha & H).

(** ** The alias mapper *)

Section AliasMapperFacts.
Context `{PyRuntime}.

Lemma dict_get_absent d k : dict_lookup d k = None -> dict_get d k = VNone.
Proof. unfold dict_get. intros ->. reflexivity. Qed.

Lemma inherited_label_no_alias p na nap :
  py_truthy na = false -> inherited_label p na nap = VStr p.
Proof. unfold inherited_label. intros ->. reflexivity. Qed.

Lemma identity_labels_insert m p :
  identity_labels m -> identity_labels (<[p := VStr p]> m).
Proof.
  intros Hm q v. rewrite lookup_insert. case_decide as Hq.
  - intros [= <-]. subst q. reflexivity.
  - apply Hm.
Qed.

(** A fold whose every step keeps an invariant keeps it. *)
Lemma fold_left_invariant {S A} (I : S -> Prop) (f : S -> A -> S) (l : list A) :
  Forall (fun x => forall s, I s -> I (f s x)) l ->
  forall s, I s -> I (fold_left f l s).
Proof.
  induction 1 as [| x l Hx _ IH]; simpl; intros s Hs.
  - exact Hs.
  - apply IH, Hx, Hs.
Qed.

Lemma has_no_alias_items d :
  has_no_alias (VDict d) = true ->
  dict_lookup d "alias" = None /\
  Forall (fun item => has_no_alias (snd item) = true) d.
Proof.
  simpl. destruct (dict_lookup d "alias"); [discriminate |].
  intros Hd. split; [reflexivity |].
  apply Forall_forall. intros x Hx.
  rewrite forallb_forall in Hd. apply Hd, list_elem_of_In, Hx.
Qed.

Lemma has_no_alias_elements l :
  has_no_alias (VList l) = true -> Forall (fun x => has_no_alias x = true) l.
Proof.
  simpl. intros Hl. apply Forall_forall. intros x Hx.
  rewrite forallb_forall in Hl. apply Hl, list_elem_of_In, Hx.
Qed.


Lemma map_steps_identity_nested steps :
  keeps_identity steps /\ items_keep_identity steps.
Proof.
  induction steps as [| b | z | s | l IH | d IH] using value_nested_ind;
    try (split; [intros _ base m na nap _ Hm; exact Hm | exact I]).
  - (* a list: [enumerate] and, for a dict element, its items *)
    split; [| exact I].
    intros Hsteps base m na nap Hna Hm. simpl.
    apply has_no_alias_elements in Hsteps.
    apply (fold_left_invariant (fun acc => identity_labels (snd acc))); [| exact Hm].
    rewrite Forall_forall in IH, Hsteps |- *.
    intros step Hstep [idx m'] Hm'. simpl in Hm'.
    destruct (IH step Hstep) as [_ Hitems]. specialize (Hsteps step Hstep).
    destruct step as [| b | z | s | l' | d];
      simpl; rewrite ?inherited_label_no_alias by exact Hna;
      try (apply identity_labels_insert; exact Hm').
    destruct (has_no_alias_items d Hsteps) as [Hnone Hd].
    rewrite ?(dict_get_absent d "alias" Hnone). simpl.
    rewrite ?inherited_label_no_alias by exact Hna.
    apply fold_left_invariant; [| apply identity_labels_insert; exact Hm'].
    simpl in Hitems. rewrite Forall_forall in Hitems, Hd |- *.
    intros [key v] Hitem m'' Hm''.
    apply (Hitems (key, v) Hitem); [apply (Hd (key, v) Hitem) | exact Hna | exact Hm''].
  - (* a dict *)
    assert (Hchildren : Forall (fun item => keeps_identity (snd item)) d).
    { eapply Forall_impl; [exact IH |]. intros item [Hitem _]. exact Hitem. }
    split; [| exact Hchildren].
    intros Hsteps base m na nap Hna Hm. simpl.
    destruct (has_no_alias_items d Hsteps) as [Hnone Hd].
    rewrite (dict_get_absent d "alias" Hnone). simpl. rewrite Hna. simpl.
    apply fold_left_invariant.
    + rewrite Forall_forall in Hchildren, Hd |- *.
      intros [key v] Hitem m' Hm'.
      apply (Hchildren (key, v) Hitem); [apply (Hd (key, v) Hitem) | exact Hna | exact Hm'].
    + destruct (negb (String.eqb base "")); [apply identity_labels_insert |]; exact Hm.
Qed.

Lemma map_steps_identity steps base m na nap :
  has_no_alias steps = true -> py_truthy na = false ->
  identity_labels m -> identity_labels (map_steps steps base m na nap).
Proof.
  intros Hsteps Hna Hm.
  destruct (map_steps_identity_nested steps) as [Hkeeps _].
  apply Hkeeps; assumption.
Qed.
End AliasMapperFacts.

Section AliasMapperClaims.
Context `{PyRuntime}.

(** Only the subtrees under the top-level keys matter: an [alias] of the
    automation itself is never a label. *)
Lemma load_automation_identity (items : list (string * value)) (m : gmap string value) :
  Forall (fun item => has_no_alias (snd item) = true) items ->
  load_automation (VDict items) = ok m ->
  identity_labels m.
Proof.
  intros Hitems [= <-].
  apply fold_left_invariant.
  - rewrite Forall_forall in Hitems |- *.
    intros [key v] Hitem m' Hm'.
    destruct (String.eqb key "sequence" || is_container v); [| exact Hm'].
    apply map_steps_identity; [apply (Hitems (key, v) Hitem) | reflexivity | exact Hm'].
  - intros p v. rewrite lookup_empty. discriminate.
Qed.

Lemma load_automation_skips_leaves (items : list (string * value)) :
  Forall (fun item => is_container (snd item) = false) items ->
  load_automation (VDict items) = ok ∅.
Proof.
  intros Hitems. unfold load_automation. f_equal.
  apply (fold_left_invariant (fun m : gmap string value => m = ∅)); [| reflexivity].
  rewrite Forall_forall in Hitems |- *.
  intros [key v] Hitem m ->. specialize (Hitems (key, v) Hitem). simpl in Hitems.
  destruct v; try discriminate; destruct (String.eqb key "sequence"); reflexivity.
Qed.

(** C5.  The fragment [{alias: "A", then: [{}, {alias: "B"}]}] at path
    [action/0] gives exactly three labels: [action/0 -> "A"],
    [action/0/then/0 -> "A//then/0"] and [action/0/then/1 -> "B"]. *)
Theorem alias_inheritance_example :
  load_automation
    (VDict [("action",
             VList [VDict [("alias", VStr "A");
                           ("then", VList [VDict []; VDict [("alias", VStr "B")]])]])])
  = ok (<["action/0" := VStr "A"]>
         (<["action/0/then/0" := VStr "A//then/0"]>
           (<["action/0/then/1" := VStr "B"]> ∅))).
Proof. vm_compute. reflexivity. Qed.

(** C6.  A definition without any [alias] field maps every path of its
    mapping to itself. *)
Theorem no_alias_identity_labeling (doc : value) (m : gmap string value) :
  has_no_alias doc = true ->
  load_automation doc = ok m ->
  forall (p : string) (v : value), m !! p = Some v -> v = VStr p.
Proof.
  intros Hdoc Hload.
  destruct doc as [| b | z | s | l | items]; try discriminate Hload.
  apply (load_automation_identity items m); [| exact Hload].
  apply has_no_alias_items, Hdoc.
Qed.
End AliasMapperClaims.

Lemma no_alias_identity_labeling_witness :
  let doc :=
    VDict [("mode", VStr "single");
           ("action", VList [VDict [("service", VStr "light.turn_on");
                                    ("then", VList [VDict []])]])] in
  exists m, @load_automation Reference.runtime doc = ok m /\
            m !! "action/0/then/0" = Some (VStr "action/0/then/0") /\
            forall (p : string) (v : value), m !! p = Some v -> v = VStr p.
Proof.
  intros doc. eexists. split; [reflexivity |]. split; [vm_compute; reflexivity |].
  apply (@no_alias_identity_labeling Reference.runtime doc); reflexivity.
Defined.

(** ** Lists built by appending in a loop *)

Lemma fold_left_append {A B} (f : list B -> A -> list B) (g : A -> list B) (l : list A) :
  (forall acc x, f acc x = acc ++ g x) ->
  forall init, fold_left f l init = init ++ flat_map g l.
Proof.
  intros Hf. induction l as [| x l IH]; intros init; simpl.
  - rewrite app_nil_r. reflexivity.
  - rewrite IH, Hf, <- app_assoc. reflexivity.
Qed.

Lemma flat_map_singleton {A B} (f : A -> B) (l : list A) :
  flat_map (fun x => [f x]) l = map f l.
Proof. induction l as [| x l IH]; simpl; [| rewrite IH]; reflexivity. Qed.

(** The flattened collection follows the table's entry order and, within
    an entry holding a list, the order of that list. *)
Lemma collect_events_order (table : list (string * value)) :
  collect_events table = flat_map (fun item => events_of (snd item)) table.
Proof.
  unfold collect_events.
  rewrite (fold_left_append _ (fun item => events_of (snd item))); [reflexivity |].
  intros acc [key v]. unfold events_of. simpl.
  apply fold_left_append.
  intros acc' ev. destruct ev as [| b | z | s | l | d];
    rewrite ?app_nil_r; try reflexivity.
  destruct (dict_lookup d "path"); rewrite ?app_nil_r; reflexivity.
Qed.

(** ** The stable sort *)

Section StableSort.
Context {A : Type}.
Implicit Types (x : Z * A) (l : list (Z * A)).


Lemma insert_by_key_perm x l : Permutation (insert_by_key x l) (x :: l).
Proof.
  induction l as [| y l IH]; simpl.
  - reflexivity.
  - destruct (fst x <=? fst y)%Z; [reflexivity |].
    rewrite IH. apply perm_swap.
Qed.

Lemma sort_by_key_perm l : Permutation (sort_by_key l) l.
Proof.
  induction l as [| x l IH]; simpl.
  - reflexivity.
  - rewrite insert_by_key_perm, IH. reflexivity.
Qed.

Lemma insert_by_key_hd x y l :
  key_le y x -> HdRel key_le y l -> HdRel key_le y (insert_by_key x l).
Proof.
  intros Hyx Hyl. destruct l as [| z l]; simpl.
  - constructor. exact Hyx.
  - destruct (fst x <=? fst z)%Z; constructor; [exact Hyx |].
    inversion Hyl; assumption.
Qed.

Lemma insert_by_key_sorted x l :
  Sorted key_le l -> Sorted key_le (insert_by_key x l).
Proof.
  induction 1 as [| y l Hl IH Hy]; simpl.
  - repeat constructor.
  - destruct (Z.leb_spec (fst x) (fst y)) as [Hxy | Hyx].
    + constructor; [constructor; assumption | constructor; exact Hxy].
    + constructor; [exact IH |].
      apply insert_by_key_hd; [unfold key_le; lia | exact Hy].
Qed.

(** Ascending keys. *)
Lemma sort_by_key_sorted l : Sorted key_le (sort_by_key l).
Proof.
  induction l as [| x l IH]; simpl.
  - constructor.
  - apply insert_by_key_sorted, IH.
Qed.

Lemma insert_by_key_filter (k : Z) x l :
  filter (fun y : Z * A => fst y = k) (insert_by_key x l) =
  filter (fun y : Z * A => fst y = k) (x :: l).
Proof.
  induction l as [| y l IH]; simpl; [reflexivity |].
  destruct (Z.leb_spec (fst x) (fst y)) as [Hxy | Hyx]; [reflexivity |].
  rewrite (filter_cons _ y), IH, !filter_cons.
  repeat case_decide; try reflexivity. lia.
Qed.

(** Equal keys keep their order: the elements of any one key are the
    same list before and after the sort. *)
Lemma sort_by_key_stable (k : Z) l :
  filter (fun y : Z * A => fst y = k) (sort_by_key l) =
  filter (fun y : Z * A => fst y = k) l.
Proof.
  induction l as [| x l IH]; simpl; [reflexivity |].
  rewrite insert_by_key_filter, !filter_cons, IH. reflexivity.
Qed.
End StableSort.

(** ** Loops in the result monad *)

Lemma result_map_length {A B} (f : A -> result B) (l : list A) (ys : list B) :
  result_map f l = ok ys -> length ys = length l.
Proof.
  revert ys. induction l as [| x l IH]; simpl; intros ys Hys.
  - injection Hys as <-. reflexivity.
  - inv_bind Hys. inv_bind Hys. injection Hys as <-. simpl.
    f_equal. apply IH. assumption.
Qed.

Lemma result_map_elem {A B} (f : A -> result B) (l : list A) (ys : list B) (x : A) :
  result_map f l = ok ys -> In x l -> exists y, f x = ok y.
Proof.
  revert ys. induction l as [| x' l IH]; simpl; intros ys Hys Hx; [contradiction |].
  inv_bind Hys. inv_bind Hys.
  destruct Hx as [-> | Hx]; [eexists; eassumption | eapply IH; eassumption].
Qed.

(** ** The trace normalizer *)

Section TraceNormalizerFacts.
Context `{PyRuntime}.


Lemma records_with_markers (n : nat) (ls : list line) :
  records (with_markers n ls) = ls.
Proof.
  revert n. induction ls as [| l ls IH]; intros n; simpl; [reflexivity |].
  destruct (str_contains "repeat" (path l)); simpl; rewrite IH; reflexivity.
Qed.

(** The loop of lines 113-163, run from counter [n] and output [output]:
    it raises where building a record raises, and otherwise appends the
    records with their markers. *)
Lemma emit_events_unfold mapping tz (evs : list event) :
  forall (n : nat) (output : list entry),
    result_fold (emit_event mapping tz) evs (n, output) =
    (do ls <- result_map (display_record mapping tz) evs;
     ok ((n + repeats ls)%nat, output ++ with_markers n ls)).
Proof.
  induction evs as [| ev evs IH]; intros n output; simpl.
  - unfold repeats; simpl. rewrite Nat.add_0_r, app_nil_r. reflexivity.
  - destruct (display_record mapping tz ev) as [e | l]; simpl; [reflexivity |].
    destruct (str_contains "repeat" (path l)) eqn:Hrepeat; simpl;
      rewrite IH; destruct (result_map (display_record mapping tz) evs) as [e | ls];
      simpl; try reflexivity; unfold repeats; simpl; rewrite Hrepeat; simpl;
      unfold ok; apply f_equal; apply f_equal2; try lia;
      rewrite <- !app_assoc; reflexivity.
Qed.

(** [normalize] in one equation: timezone, table, sort, records, markers. *)
Lemma normalize_unfold mapping trace_data timezone :
  normalize mapping trace_data timezone =
  (do tz <- select_timezone timezone;
   do table <- event_table trace_data;
   do sorted <- sort_events (collect_events table);
   do ls <- result_map (display_record mapping tz) sorted;
   ok (with_markers 0 ls)).
Proof.
  unfold normalize.
  destruct (select_timezone timezone) as [e | tz]; simpl; [reflexivity |].
  destruct (event_table trace_data) as [e | table]; simpl; [reflexivity |].
  destruct (sort_events (collect_events table)) as [e | sorted]; simpl; [reflexivity |].
  rewrite emit_events_unfold.
  destruct (result_map (display_record mapping tz) sorted); reflexivity.
Qed.

Lemma format_output_map (processed_data : list entry) :
  format_output processed_data =
  map (fun e => match e with Marker s => s | Line l => format_line l end) processed_data.
Proof.
  unfold format_output. rewrite <- flat_map_singleton.
  rewrite (fold_left_append _
    (fun e => [match e with Marker s => s | Line l => format_line l end])).
  - reflexivity.
  - intros acc [s | l]; reflexivity.
Qed.

Lemma process_trace_result trace_data output_file timezone w :
  fst (process_trace trace_data output_file timezone w) =
  normalize (alias_mapping w) trace_data timezone.
Proof.
  unfold process_trace.
  destruct (normalize (alias_mapping w) trace_data timezone) as [e | output];
    [reflexivity |].
  destruct output_file as [name |]; [| reflexivity].
  destruct (negb (String.eqb name "")); reflexivity.
Qed.

Lemma process_trace_mapping trace_data output_file timezone w :
  alias_mapping (snd (process_trace trace_data output_file timezone w)) =
  alias_mapping w.
Proof.
  unfold process_trace.
  destruct (normalize (alias_mapping w) trace_data timezone) as [e | output];
    [reflexivity |].
  destruct output_file as [name |]; [| reflexivity].
  destruct (negb (String.eqb name "")); reflexivity.
Qed.

Lemma sort_events_unfold (evs sorted : list event) :
  sort_events evs = ok sorted ->
  exists keys, result_map sort_key evs = ok keys /\
               length keys = length evs /\
               sorted = map snd (sort_by_key (zip keys evs)).
Proof.
  unfold sort_events. intros Hsort. inv_bind Hsort. injection Hsort as <-.
  exists a. split; [assumption |]. split; [| reflexivity].
  eapply result_map_length; eassumption.
Qed.

Lemma sort_events_perm (evs sorted : list event) :
  sort_events evs = ok sorted -> Permutation sorted evs.
Proof.
  intros Hsort. destruct (sort_events_unfold _ _ Hsort) as (keys & _ & Hlen & ->).
  rewrite sort_by_key_perm. change (map snd (zip keys evs)) with ((zip keys evs).*2).
  rewrite snd_zip by lia. reflexivity.
Qed.

Lemma display_record_needs_timestamp mapping tz (ev : event) :
  dict_lookup ev "timestamp" = None ->
  display_record mapping tz ev = raise (KeyError "timestamp").
Proof. unfold display_record. simpl. intros ->. reflexivity. Qed.

(** An event without a [timestamp] passes the sort with key 0 and then
    stops the loop: line 114 reads [ev['timestamp']] without a default.
    No trace that holds such an event gets an output. *)
Lemma missing_timestamp_never_returns mapping trace_data timezone table (ev : event) :
  event_table trace_data = ok table ->
  In ev (collect_events table) ->
  dict_lookup ev "timestamp" = None ->
  exists e, normalize mapping trace_data timezone = raise e.
Proof.
  intros Htable Hev Hts.
  destruct (normalize mapping trace_data timezone) as [e | output] eqn:Hnorm;
    [exists e; reflexivity | exfalso].
  rewrite normalize_unfold, Htable in Hnorm.
  inv_bind Hnorm. simpl in Hnorm. inv_bind Hnorm. inv_bind Hnorm.
  assert (Hin : In ev a0).
  { apply list_elem_of_In. rewrite (sort_events_perm _ _ Ha0).
    apply list_elem_of_In, Hev. }
  destruct (result_map_elem _ _ _ ev Ha1 Hin) as [l Hl].
  rewrite display_record_needs_timestamp in Hl by exact Hts. discriminate.
Qed.
End TraceNormalizerFacts.

(** ** Alias resolution *)

Lemma try_variations_found (m : gmap string value) (vars : list string) (alias : value) :
  forall (i : nat) (var : string) (v : value),
    vars !! i = Some var ->
    m !! var = Some v ->
    (forall (j : nat) (var' : string),
       (j < i)%nat -> vars !! j = Some var' -> m !! var' = None) ->
    try_variations m vars alias = v.
Proof.
  induction vars as [| var0 vars IH]; intros i var v Hi Hv Hbefore.
  - destruct i; discriminate Hi.
  - destruct i as [| i]; simpl in *.
    + injection Hi as ->. rewrite Hv. reflexivity.
    + rewrite (Hbefore O var0) by (reflexivity || lia).
      apply (IH i var v Hi Hv). intros j var' Hj Hvar'.
      apply (Hbefore (S j) var'); [lia | exact Hvar'].
Qed.

Lemma try_variations_none (m : gmap string value) (vars : list string) (alias : value) :
  (forall var, In var vars -> m !! var = None) ->
  try_variations m vars alias = alias.
Proof.
  induction vars as [| var0 vars IH]; intros Hnone; simpl; [reflexivity |].
  rewrite (Hnone var0) by (left; reflexivity).
  apply IH. intros var Hvar. apply Hnone. right. exact Hvar.
Qed.

(** C4 (as amended).  For a path that is not a key of the mapping, the
    six variations are the path with every occurrence of [action/],
    [actions/], [condition/], [conditions/], [trigger/], [triggers/]
    replaced by its singular or plural counterpart, tried in that order;
    the alias is the mapping's value for the first variation that is a
    key, or the literal path when no variation is a key or when that value
    is falsy. *)
Theorem alias_resolution_of_absent_path (m : gmap string value) (p : string) :
  m !! p = None ->
  variations p =
    [ py_replace "action/" "actions/" p; py_replace "actions/" "action/" p;
      py_replace "condition/" "conditions/" p; py_replace "conditions/" "condition/" p;
      py_replace "trigger/" "triggers/" p; py_replace "triggers/" "trigger/" p ] /\
  (forall (i : nat) (var : string) (v : value),
     variations p !! i = Some var ->
     m !! var = Some v ->
     (forall (j : nat) (var' : string),
        (j < i)%nat -> variations p !! j = Some var' -> m !! var' = None) ->
     resolve_alias m p = if py_truthy v then v else VStr p) /\
  ((forall var, In var (variations p) -> m !! var = None) ->
   resolve_alias m p = VStr p).
Proof.
  intros Habsent. split; [reflexivity |].
  unfold resolve_alias. rewrite Habsent. cbn [default from_option id py_truthy negb]. split.
  - intros i var v Hi Hv Hbefore.
    rewrite (try_variations_found m (variations p) VNone i var v Hi Hv Hbefore).
    destruct (py_truthy v); reflexivity.
  - intros Hnone. rewrite (try_variations_none m (variations p) VNone Hnone).
    reflexivity.
Qed.

Lemma alias_resolution_of_absent_path_witness :
  resolve_alias {["actions/0" := VStr "Turn on light"]} "action/0" =
  VStr "Turn on light".
Proof.
  assert (Habsent :
    ({["actions/0" := VStr "Turn on light"]} : gmap string value) !! "action/0" = None)
    by reflexivity.
  destruct (alias_resolution_of_absent_path _ _ Habsent) as (_ & Hfound & _).
  apply (Hfound O "actions/0" (VStr "Turn on light")); [reflexivity | reflexivity |].
  intros j var' Hj. lia.
Defined.

(** C4, the specification's wording: with [action/] replaced at its first
    occurrence only, the path [action/0/action/1] would resolve through
    the key [actions/0/action/1]; the program replaces both occurrences,
    finds no key and falls back to the path. *)
Lemma first_occurrence_only_counterexample :
  let m : gmap string value := {["actions/0/action/1" := VStr "Dim the lights"]} in
  m !! "action/0/action/1" = None /\
  m !! replace_first "action/" "actions/" "action/0/action/1"
    = Some (VStr "Dim the lights") /\
  py_replace "action/" "actions/" "action/0/action/1" = "actions/0/actions/1" /\
  resolve_alias m "action/0/action/1" = VStr "action/0/action/1".
Proof. vm_compute. repeat split; reflexivity. Qed.

(** ** Properties of the trace normalizer *)

Section TraceNormalizerClaims.
Context `{PyRuntime}.

(** C3 (as amended).  The display records of the output are those of
    the events in sorted order, and the output is these records, each one
    whose path contains [repeat] preceded by a marker and no other
    preceded by one; the marker before the n-th such record is a newline
    followed by [[ITERATION n]], counting from 1; and [format_output]
    gives a marker back as it is. *)
Theorem iteration_markers (trace_data : value) (output_file timezone : option string)
    (w : world) (out : list entry) :
  fst (process_trace trace_data output_file timezone w) = ok out ->
  (exists (table : list (string * value)) (sorted : list event) (tz : tzinfo),
     event_table trace_data = ok table /\
     sort_events (collect_events table) = ok sorted /\
     result_map (display_record (alias_mapping w) tz) sorted = ok (records out)) /\
  out = with_markers 0 (records out) /\
  (forall n : nat, iteration_marker n = nl +:+ "[ITERATION " +:+ pretty n +:+ "]") /\
  (forall (i : nat) (s : string),
     out !! i = Some (Marker s) -> format_output out !! i = Some s).
Proof.
  rewrite process_trace_result, normalize_unfold. intros Hout.
  apply rbind_ok in Hout. destruct Hout as (tz & _ & Hout).
  apply rbind_ok in Hout. destruct Hout as (table & Htable & Hout).
  apply rbind_ok in Hout. destruct Hout as (sorted & Hsorted & Hout).
  apply rbind_ok in Hout. destruct Hout as (ls & Hls & Hout).
  injection Hout as <-. rewrite records_with_markers.
  split; [| split; [| split]].
  - exists table, sorted, tz. repeat split; assumption.
  - reflexivity.
  - reflexivity.
  - intros i s Hi. rewrite format_output_map, list_lookup_fmap, Hi. reflexivity.
Qed.

(** C7.  [process_trace] leaves the mapping as it found it, and a call
    made after it returns what the same call would have returned before. *)
Theorem mapping_is_read_only (trace_data : value) (output_file timezone : option string)
    (w : world) :
  alias_mapping (snd (process_trace trace_data output_file timezone w)) = alias_mapping w /\
  (forall (trace_data' : value) (output_file' timezone' : option string),
     fst (process_trace trace_data' output_file' timezone'
            (snd (process_trace trace_data output_file timezone w))) =
     fst (process_trace trace_data' output_file' timezone' w)).
Proof.
  split.
  - apply process_trace_mapping.
  - intros trace_data' output_file' timezone'.
    rewrite !process_trace_result, process_trace_mapping. reflexivity.
Qed.

Lemma process_trace_appends (name : string) trace_data timezone w out w' :
  name <> "" ->
  process_trace trace_data (Some name) timezone w = (ok out, w') ->
  w' = append_file name (str_join nl (format_output out)) w.
Proof.
  intros Hname. unfold process_trace.
  destruct (normalize (alias_mapping w) trace_data timezone) as [e | output];
    [discriminate |].
  destruct (String.eqb_spec name ""); [contradiction |]. simpl.
  intros [= <- <-]. reflexivity.
Qed.

(** C8.  Two runs against the same destination: after the first the
    file is its former content followed by the first run's text, after
    the second that again followed by the second run's text. *)
Theorem append_semantics (name : string) (trace_data1 trace_data2 : value)
    (timezone1 timezone2 : option string) (w w1 w2 : world) (out1 out2 : list entry) :
  name <> "" ->
  process_trace trace_data1 (Some name) timezone1 w = (ok out1, w1) ->
  process_trace trace_data2 (Some name) timezone2 w1 = (ok out2, w2) ->
  files w1 !! name =
    Some (default "" (files w !! name) +:+ str_join nl (format_output out1)) /\
  files w2 !! name =
    Some ((default "" (files w !! name) +:+ str_join nl (format_output out1))
          +:+ str_join nl (format_output out2)).
Proof.
  intros Hname Hrun1 Hrun2.
  apply process_trace_appends in Hrun1; [| exact Hname].
  apply process_trace_appends in Hrun2; [| exact Hname].
  subst w2 w1. simpl. rewrite !lookup_insert_eq. simpl. split; reflexivity.
Qed.

(** X20.  The events come out of the table in entry order and, within a
    list, in list order; the sort, for which an event without a timestamp
    has key 0, keeps the order of events with equal keys; and when the
    normalizer returns, the display records of its output are those of the
    sorted events, one each, in that order. *)
Theorem timestamp_sort_is_stable (trace_data : value) (table : list (string * value))
    (sorted : list event) :
  event_table trace_data = ok table ->
  sort_events (collect_events table) = ok sorted ->
  collect_events table = flat_map (fun item => events_of (snd item)) table /\
  (forall ev : event, dict_lookup ev "timestamp" = None -> sort_key ev = ok 0%Z) /\
  (exists keys : list Z,
     result_map sort_key (collect_events table) = ok keys /\
     sorted = map snd (sort_by_key (zip keys (collect_events table))) /\
     forall k : Z,
       filter (fun ke : Z * event => fst ke = k)
         (sort_by_key (zip keys (collect_events table))) =
       filter (fun ke : Z * event => fst ke = k) (zip keys (collect_events table))) /\
  (forall (output_file timezone : option string) (w : world) (out : list entry),
     fst (process_trace trace_data output_file timezone w) = ok out ->
     exists tz : tzinfo,
       result_map (display_record (alias_mapping w) tz) sorted = ok (records out)).
Proof.
  intros Htable Hsorted. split; [apply collect_events_order |]. split; [| split].
  - intros ev Hev. unfold sort_key. rewrite Hev. reflexivity.
  - destruct (sort_events_unfold _ _ Hsorted) as (keys & Hkeys & _ & ->).
    exists keys. split; [exact Hkeys |]. split; [reflexivity |].
    intros k. apply sort_by_key_stable.
  - intros output_file timezone w out.
    rewrite process_trace_result, normalize_unfold, Htable. intros Hout.
    apply rbind_ok in Hout. destruct Hout as (tz & _ & Hout).
    simpl in Hout. rewrite Hsorted in Hout. simpl in Hout.
    apply rbind_ok in Hout. destruct Hout as (ls & Hls & Hout).
    injection Hout as <-. exists tz. rewrite records_with_markers. exact Hls.
Qed.
End TraceNormalizerClaims.

(** ** The identity check of [main] *)

Section MainClaims.
Context `{PyRuntime}.

Lemma alert_text_nonempty (main_alias friendly_name : value) :
  alert_text main_alias friendly_name <> "".
Proof. unfold alert_text. simpl. discriminate. Qed.

(** X19.  When the lookup of the friendly name raises, whatever the
    exception, the name is [None], the alert is set to its text (which is
    not empty) and the report carries it right after the parameters; the
    check itself returns. *)
Theorem failed_lookup_still_alerts (params_summary yaml_structure mapping_structure : string)
    (items : list (string * value)) (trace_data : value) (e : exn) :
  lookup_friendly_name trace_data = raise e ->
  find_friendly_name trace_data = VNone /\
  alert_name (dict_get items "alias") (find_friendly_name trace_data) =
    alert_text (dict_get items "alias") VNone /\
  alert_text (dict_get items "alias") VNone <> "" /\
  main_report params_summary yaml_structure mapping_structure (VDict items) trace_data =
    ok (alert_text (dict_get items "alias") VNone,
        params_summary +:+ alert_text (dict_get items "alias") VNone +:+
        nl +:+ "[LOADED YAML - FULL STRUCTURE]" +:+ nl +:+ yaml_structure +:+
        nl +:+ nl +:+ "[IDENTIFIED ALIAS MAPPING]" +:+ nl +:+ mapping_structure).
Proof.
  intros Hlookup.
  assert (Hname : find_friendly_name trace_data = VNone).
  { unfold find_friendly_name. rewrite Hlookup. reflexivity. }
  split; [exact Hname |]. split; [| split].
  - rewrite Hname. reflexivity.
  - apply alert_text_nonempty.
  - unfold main_report. rewrite Hname. reflexivity.
Qed.
End MainClaims.

(** ** The properties on example traces *)

(** C1.  An event without a [timestamp] is given the sort key 0 and
    sorts first, but the loop then reads [ev['timestamp']] and raises
    [KeyError]: the trace gets no output at all. *)
Theorem missing_timestamp_raises (w : world) :
  @sort_events Reference.runtime
    (collect_events
       [("action/0",
         VList [Examples.stamped "action/0" Examples.T1;
                VDict [("path", VStr "action/0")]])])
  = ok [ [("path", VStr "action/0")];
         [("path", VStr "action/0"); ("timestamp", VStr Examples.T1)] ] /\
  @process_trace Reference.runtime Examples.trace_missing_timestamp None None w =
  (raise (KeyError "timestamp"), w).
Proof. split; reflexivity. Qed.

(** C3, the specification's wording: the marker before the first record of a
    [repeat] path is not the string [[ITERATION 1]]; it starts with a
    newline. *)
Lemma marker_text_counterexample :
  exists l : line,
    fst (@process_trace Reference.runtime Examples.trace_one_repeat None None
           Examples.empty_world)
    = ok [Marker (nl +:+ "[ITERATION 1]"); Line l] /\
    Marker (nl +:+ "[ITERATION 1]") <> Marker (spec_marker 1).
Proof.
  eexists. split; [vm_compute; reflexivity |].
  vm_compute. discriminate.
Qed.

Lemma iteration_markers_witness :
  exists out : list entry,
    fst (@process_trace Reference.runtime Examples.trace_repeat None None
           Examples.empty_world) = ok out /\
    out !! 0%nat = Some (Marker (iteration_marker 1)) /\
    out !! 3%nat = Some (Marker (iteration_marker 2)) /\
    length out = 5%nat /\
    out = with_markers 0 (records out).
Proof.
  destruct (fst (@process_trace Reference.runtime Examples.trace_repeat None None
                   Examples.empty_world)) as [e | out] eqn:Hrun.
  - vm_compute in Hrun. discriminate.
  - exists out. split; [reflexivity |].
    pose proof (@iteration_markers Reference.runtime _ _ _ _ out Hrun) as (_ & Hout & _).
    vm_compute in Hrun. injection Hrun as Hrun.
    repeat split; try exact Hout; rewrite <- Hrun; reflexivity.
Defined.

Lemma append_semantics_witness :
  exists (out1 out2 : list entry) (w1 w2 : world),
    @process_trace Reference.runtime Examples.trace_repeat (Some "trace.log") None
      Examples.logged_world = (ok out1, w1) /\
    @process_trace Reference.runtime Examples.trace_one_repeat (Some "trace.log") None
      w1 = (ok out2, w2) /\
    files w2 !! "trace.log" =
      Some (("header" +:+ str_join nl (@format_output Reference.runtime out1))
            +:+ str_join nl (@format_output Reference.runtime out2)).
Proof.
  destruct (@process_trace Reference.runtime Examples.trace_repeat (Some "trace.log") None
              Examples.logged_world) as [[e | out1] w1] eqn:Hrun1.
  { vm_compute in Hrun1. discriminate. }
  destruct (@process_trace Reference.runtime Examples.trace_one_repeat (Some "trace.log")
              None w1) as [[e | out2] w2] eqn:Hrun2.
  { vm_compute in Hrun1. injection Hrun1 as _ <-. vm_compute in Hrun2. discriminate. }
  exists out1, out2, w1, w2. split; [reflexivity |]. split; [exact Hrun2 |].
  apply (@append_semantics Reference.runtime "trace.log" _ _ _ _ _ _ _ _ _
           ltac:(discriminate) Hrun1 Hrun2).
Defined.

Lemma failed_lookup_still_alerts_witness :
  find_friendly_name Examples.trace_bare_trigger = VNone /\
  @alert_name Reference.runtime (VStr "Morning lights")
    (find_friendly_name Examples.trace_bare_trigger) =
  @alert_text Reference.runtime (VStr "Morning lights") VNone.
Proof.
  destruct (@failed_lookup_still_alerts Reference.runtime "" "" ""
              [("alias", VStr "Morning lights")] Examples.trace_bare_trigger
              (KeyError "0") eq_refl) as (Hname & Halert & _).
  split; [exact Hname | exact Halert].
Defined.

Lemma timestamp_sort_is_stable_witness :
  exists (sorted : list event) (out : list entry),
    @sort_events Reference.runtime (collect_events table_with_ties) = ok sorted /\
    map (fun ev => (dict_get ev "path", dict_get ev "timestamp")) sorted =
      [(VStr "action/0", VStr Examples.T1); (VStr "action/1", VStr Examples.T1);
       (VStr "action/0", VStr Examples.T2)] /\
    fst (@process_trace Reference.runtime (Examples.trace_of table_with_ties) None None
           Examples.empty_world) = ok out /\
    map path (records out) = ["action/0"; "action/1"; "action/0"] /\
    exists tz : unit,
      result_map (@display_record Reference.runtime ∅ tz) sorted = ok (records out).
Proof.
  destruct (@sort_events Reference.runtime (collect_events table_with_ties))
    as [e | sorted] eqn:Hsorted.
  { vm_compute in Hsorted. discriminate. }
  destruct (fst (@process_trace Reference.runtime (Examples.trace_of table_with_ties)
                   None None Examples.empty_world)) as [e | out] eqn:Hrun.
  { vm_compute in Hrun. discriminate. }
  destruct (@timestamp_sort_is_stable Reference.runtime (Examples.trace_of table_with_ties)
              table_with_ties sorted eq_refl Hsorted)
    as (_ & _ & _ & Houtput).
  exists sorted, out. split; [reflexivity |]. split.
  { vm_compute in Hsorted. injection Hsorted as <-. reflexivity. }
  split; [reflexivity |]. split.
  { vm_compute in Hrun. injection Hrun as <-. reflexivity. }
  apply (Houtput None None Examples.empty_world out Hrun).
Defined.

(** The ordering of the specification's example: events stored at T2 and
    T0 under one key and at T1 under another come out at T0, T1, T2. *)
Example event_ordering_example :
  (fun r => match r with
            | inr out => map timestamp (records out)
            | inl _ => []
            end)
    (fst (@process_trace Reference.runtime Examples.trace_repeat None None
            Examples.empty_world))
  = [ "2024-05-01 10:00:00.000001 UTC";
      "2024-05-01 10:00:00.000002 UTC";
      "2024-05-01 10:00:01.000000 UTC" ].
Proof. vm_compute. reflexivity. Qed.

(** * Further properties *)

(** ** The keys of the mapping *)

Lemma fold_left_dom {A} (f : gmap string value -> A -> gmap string value)
    (g : A -> list string) (l : list A) :
  Forall (fun x => forall m, dom (f m x) = dom m ∪ list_to_set (g x)) l ->
  forall m, dom (fold_left f l m) = dom m ∪ list_to_set (flat_map g l).
Proof.
  induction 1 as [| x l Hx _ IH]; intros m; simpl.
  - set_solver.
  - rewrite IH, Hx, list_to_set_app_L. set_solver.
Qed.

Lemma fold_left_indexed_dom {A}
    (step : nat * gmap string value -> A -> nat * gmap string value)
    (g : nat -> A -> list string) (l : list A) :
  Forall (fun x => forall idx m,
            fst (step (idx, m) x) = S idx /\
            dom (snd (step (idx, m) x)) = dom m ∪ list_to_set (g idx x)) l ->
  forall idx m,
    dom (snd (fold_left step l (idx, m))) = dom m ∪ list_to_set (flat_imap g idx l).
Proof.
  induction 1 as [| x l Hx _ IH]; intros idx m; simpl.
  - set_solver.
  - destruct (Hx idx m) as [Hidx Hdom].
    destruct (step (idx, m) x) as [idx' m'] eqn:Hstep. simpl in Hidx, Hdom. subst idx'.
    rewrite IH, Hdom, list_to_set_app_L. set_solver.
Qed.

Section MappingKeys.
Context `{PyRuntime}.


Lemma map_steps_dom_nested (steps : value) :
  adds_walk_paths steps /\
  match steps with
  | VDict d => Forall (fun item => adds_walk_paths (snd item)) d
  | _ => True
  end.
Proof.
  induction steps as [| b | z | s | l IH | d IH] using value_nested_ind;
    try (split; [intros base m na nap; simpl; set_solver | exact I]).
  - split; [| exact I]. intros base m na nap. simpl.
    apply (fold_left_indexed_dom _
      (fun (idx : nat) (step : value) =>
         element_path base idx ::
         match step with
         | VDict d =>
             flat_map
               (fun item : string * value =>
                  walk_paths (snd item) (element_path base idx +:+ "/" +:+ fst item))
               d
         | _ => []
         end)).
    rewrite Forall_forall in IH |- *. intros step Hstep idx m'.
    destruct (IH step Hstep) as [_ Hitems]. unfold element_path.
    destruct step as [| b | z | s | l' | d]; simpl;
      try (split; [reflexivity | rewrite dom_insert_L; set_solver]).
    destruct (py_truthy (dict_get d "alias")); simpl; (split; [reflexivity |]);
      (rewrite (fold_left_dom _
         (fun item : string * value =>
            walk_paths (snd item)
              ((if negb (String.eqb base "")
                then base +:+ "/" +:+ pretty idx
                else "sequence/" +:+ pretty idx) +:+ "/" +:+ fst item)));
       [rewrite dom_insert_L; set_solver |]);
      simpl in Hitems; rewrite Forall_forall in Hitems |- *;
      intros [key v] Hitem m''; apply (Hitems (key, v) Hitem).
  - assert (Hchildren : Forall (fun item => adds_walk_paths (snd item)) d).
    { eapply Forall_impl; [exact IH |]. intros item [Hitem _]. exact Hitem. }
    split; [| exact Hchildren]. intros base m na nap. simpl. unfold member_path.
    destruct (py_truthy (dict_get d "alias")), (py_truthy na),
      (negb (String.eqb base "")) eqn:Hbase; simpl; rewrite ?Hbase;
      (match goal with
       | |- context [flat_map ?g d] => rewrite (fold_left_dom _ g)
       end; [rewrite ?dom_insert_L; set_solver |]);
      rewrite Forall_forall in Hchildren |- *;
      intros [key v] Hitem m'; apply (Hchildren (key, v) Hitem).
Qed.

(** X1.  Whatever the aliases, [map_steps] keeps every key the mapping
    had and adds exactly the paths of the walk: each element of a list,
    each dict with a non-empty path, and so on below dicts. *)
Theorem map_steps_keys (steps : value) (base : string) (m : gmap string value)
    (na : value) (nap : option string) :
  dom (map_steps steps base m na nap) = dom m ∪ list_to_set (walk_paths steps base).
Proof. destruct (map_steps_dom_nested steps) as [Hsteps _]. apply Hsteps. Qed.

(** X2.  The keys of the mapping [load_automation] returns are exactly
    the paths walked under the top-level keys that hold a list or a dict
    (or are named [sequence]); no other key of the document gives one. *)
Theorem load_automation_keys (items : list (string * value)) (m : gmap string value) :
  load_automation (VDict items) = ok m ->
  dom m = list_to_set (document_paths items).
Proof.
  intros [= <-]. unfold document_paths.
  rewrite (fold_left_dom _
    (fun item : string * value =>
       if String.eqb (fst item) "sequence" || is_container (snd item)
       then walk_paths (snd item) (fst item)
       else [])).
  - set_solver.
  - apply Forall_forall. intros [key v] _ m. simpl.
    destruct (String.eqb key "sequence" || is_container v).
    + destruct (map_steps_dom_nested v) as [Hv _]. apply Hv.
    + set_solver.
Qed.
End MappingKeys.

(** ** The labels of the mapping *)

Lemma append_nonempty_l (s t : string) : s <> "" -> s +:+ t <> "".
Proof. destruct s; [congruence | discriminate]. Qed.

Lemma append_nonempty_r (s t : string) : t <> "" -> s +:+ t <> "".
Proof. destruct s; simpl; [trivial | discriminate]. Qed.

Lemma str_truthy (s : string) : s <> "" -> py_truthy (VStr s) = true.
Proof. simpl. destruct (String.eqb_spec s ""); [contradiction | reflexivity]. Qed.

Lemma nonempty_base_spec (base : string) :
  negb (String.eqb base "") = true -> base <> "".
Proof. destruct (String.eqb_spec base ""); [discriminate | trivial]. Qed.

Section MappingLabels.
Context `{PyRuntime}.

Lemma element_path_nonempty (base : string) (idx : nat) :
  (if negb (String.eqb base "")
   then base +:+ "/" +:+ pretty idx
   else "sequence/" +:+ pretty idx) <> "".
Proof.
  destruct (negb (String.eqb base "")) eqn:Hbase.
  - apply append_nonempty_l, nonempty_base_spec, Hbase.
  - discriminate.
Qed.

Lemma inherited_label_truthy (p : string) (na : value) (nap : option string) :
  p <> "" -> py_truthy (inherited_label p na nap) = true.
Proof.
  intros Hp. unfold inherited_label. destruct (py_truthy na).
  - apply str_truthy, append_nonempty_r. discriminate.
  - apply str_truthy, Hp.
Qed.


Lemma map_steps_keeps_nested (I : gmap string value -> Prop) (steps : value) :
  kept_by_writes I ->
  keeps I steps /\
  match steps with
  | VDict d => Forall (fun item => keeps I (snd item)) d
  | _ => True
  end.
Proof.
  intros HI.
  induction steps as [| b | z | s | l IH | d IH] using value_nested_ind;
    try (split; [intros base m na nap Hm; exact Hm | exact Logic.I]).
  - split; [| exact Logic.I]. intros base m na nap Hm. simpl.
    apply (fold_left_invariant (fun acc => I (snd acc))); [| exact Hm].
    rewrite Forall_forall in IH |- *. intros step Hstep [idx m'] Hm'. simpl in Hm'.
    destruct (IH step Hstep) as [_ Hitems].
    pose proof (element_path_nonempty base idx) as Hpath.
    destruct step as [| b | z | s | l' | d]; simpl;
      try (apply HI; [exact Hpath | apply inherited_label_truthy, Hpath | exact Hm']).
    destruct (py_truthy (dict_get d "alias")) eqn:Halias; simpl;
      (apply fold_left_invariant;
       [| apply HI;
          [exact Hpath | first [exact Halias | apply inherited_label_truthy, Hpath]
          | exact Hm']]);
      simpl in Hitems; rewrite Forall_forall in Hitems |- *;
      intros [key v] Hitem m'' Hm''; apply (Hitems (key, v) Hitem), Hm''.
  - assert (Hchildren : Forall (fun item => keeps I (snd item)) d).
    { eapply Forall_impl; [exact IH |]. intros item [Hitem _]. exact Hitem. }
    split; [| exact Hchildren]. intros base m na nap Hm. simpl.
    destruct (py_truthy (dict_get d "alias")) eqn:Halias,
      (py_truthy na) eqn:Hna, (negb (String.eqb base "")) eqn:Hbase; simpl;
      (apply fold_left_invariant;
       [rewrite Forall_forall in Hchildren |- *;
        intros [key v] Hitem m' Hm'; apply (Hchildren (key, v) Hitem), Hm' |]);
      try exact Hm;
      (apply HI; [apply nonempty_base_spec, Hbase | | exact Hm]);
      first [exact Halias
            | apply inherited_label_truthy, nonempty_base_spec, Hbase
            | apply str_truthy, nonempty_base_spec, Hbase].
Qed.

Lemma truthy_labels_kept : kept_by_writes truthy_labels.
Proof.
  intros m p v _ Hv Hm q w. rewrite lookup_insert. case_decide.
  - intros [= <-]. exact Hv.
  - apply Hm.
Qed.

Lemma load_automation_truthy_labels (doc : value) (m : gmap string value) :
  load_automation doc = ok m -> truthy_labels m.
Proof.
  destruct doc as [| b | z | s | l | items]; try discriminate.
  intros [= <-]. apply (fold_left_invariant truthy_labels).
  - apply Forall_forall. intros [key v] _ m Hm.
    destruct (String.eqb key "sequence" || is_container v); [| exact Hm].
    destruct (map_steps_keeps_nested truthy_labels v truthy_labels_kept) as [Hv _].
    apply Hv, Hm.
  - intros p v. rewrite lookup_empty. discriminate.
Qed.

(** X3.  Every label of the mapping [load_automation] returns is
    truthy: an explicit alias is used only when truthy, and the labels
    built from an inherited alias or from the path are non-empty strings. *)
Theorem load_automation_labels_truthy (doc : value) (m : gmap string value) :
  load_automation doc = ok m ->
  forall (p : string) (v : value), m !! p = Some v -> py_truthy v = true.
Proof. intros Hload. apply (load_automation_truthy_labels doc m Hload). Qed.

(** X4.  The two components compose: a trace event at a path the alias
    mapper labelled is shown under exactly that label; the plural and
    singular variations are not tried and the path is not the fallback. *)
Theorem mapped_path_resolves_to_its_label (doc : value) (m : gmap string value)
    (p : string) (v : value) :
  load_automation doc = ok m ->
  m !! p = Some v ->
  resolve_alias m p = v.
Proof.
  intros Hload Hp. unfold resolve_alias. rewrite Hp.
  cbn [default from_option id].
  pose proof (load_automation_truthy_labels doc m Hload p v Hp) as Hv.
  rewrite Hv. cbn [negb]. rewrite Hv. reflexivity.
Qed.
End MappingLabels.

Lemma load_automation_labels_truthy_witness :
  exists m, @load_automation Reference.runtime Examples.doc_inherited = ok m /\
            m !! "action/0/then/0" = Some (VStr "A//then/0") /\
            py_truthy (VStr "A//then/0") = true.
Proof.
  destruct (@load_automation Reference.runtime Examples.doc_inherited)
    as [e | m] eqn:Hload; [discriminate Hload |].
  exists m. split; [reflexivity |].
  assert (Hp : m !! "action/0/then/0" = Some (VStr "A//then/0")).
  { injection Hload as <-. vm_compute. reflexivity. }
  split; [exact Hp |].
  apply (@load_automation_labels_truthy Reference.runtime _ m Hload _ _ Hp).
Defined.

Lemma mapped_path_resolves_to_its_label_witness :
  exists m, @load_automation Reference.runtime Examples.doc_inherited = ok m /\
            resolve_alias m "action/0/then/0" = VStr "A//then/0".
Proof.
  destruct (@load_automation Reference.runtime Examples.doc_inherited)
    as [e | m] eqn:Hload; [discriminate Hload |].
  exists m. split; [reflexivity |].
  apply (@mapped_path_resolves_to_its_label Reference.runtime _ m _ _ Hload).
  injection Hload as <-. vm_compute. reflexivity.
Defined.

(** ** Strings of paths *)

Lemma str_drop_append (p s : string) : str_drop (String.length p) (p +:+ s) = s.
Proof. induction p as [| c p IH]; simpl; [destruct s |]; auto. Qed.

Lemma str_contains_cons (sub : string) (c : ascii) (s : string) :
  str_contains sub (String c s) = String.prefix sub (String c s) || str_contains sub s.
Proof. reflexivity. Qed.

Lemma replace_from_absent (old new s : string) :
  str_contains old s = false -> replace_from old new 0 s = s.
Proof.
  induction s as [| c s IH]; [reflexivity |].
  rewrite str_contains_cons. intros Habsent.
  apply orb_false_elim in Habsent. destruct Habsent as [Hprefix Hrest].
  cbn [replace_from]. rewrite Hprefix, (IH Hrest). reflexivity.
Qed.

Section LabelsBelowAnAlias.
Context `{PyRuntime}.

(** X5.  Below a node with a truthy alias at a non-empty path, a node
    without alias at that path extended by [/rest] is labelled with the
    alias, two slashes and [rest] without its leading slashes: the
    ancestor's path is cut off the front, whatever it is. *)
Theorem inherited_label_strips_ancestor_path (ancestor_path rest : string)
    (nearest_alias : value) :
  py_truthy nearest_alias = true ->
  ancestor_path <> "" ->
  inherited_label (ancestor_path +:+ "/" +:+ rest) nearest_alias (Some ancestor_path) =
  VStr (py_str nearest_alias +:+ "//" +:+ lstrip_slash rest).
Proof.
  intros Halias Hpath. unfold inherited_label. rewrite Halias.
  destruct (String.eqb_spec ancestor_path ""); [contradiction |]. simpl negb. cbv iota.
  rewrite str_drop_append. reflexivity.
Qed.
End LabelsBelowAnAlias.

Lemma inherited_label_strips_ancestor_path_witness :
  @inherited_label Reference.runtime ("action/0" +:+ "/" +:+ "then/0") (VStr "A")
    (Some "action/0") = VStr ("A" +:+ "//" +:+ lstrip_slash "then/0").
Proof.
  apply (@inherited_label_strips_ancestor_path Reference.runtime);
    [reflexivity | discriminate].
Defined.

(** ** Alias resolution, further *)

(** X6.  A path that is not a key of the mapping and contains none of
    [action/], [actions/], [condition/], [conditions/], [trigger/],
    [triggers/] is shown as itself: each of the six variations is the
    path again. *)
Theorem path_without_variation_is_its_own_alias (m : gmap string value) (p : string) :
  m !! p = None ->
  str_contains "action/" p = false ->
  str_contains "actions/" p = false ->
  str_contains "condition/" p = false ->
  str_contains "conditions/" p = false ->
  str_contains "trigger/" p = false ->
  str_contains "triggers/" p = false ->
  variations p = [p; p; p; p; p; p] /\ resolve_alias m p = VStr p.
Proof.
  intros Hp H1 H2 H3 H4 H5 H6.
  assert (Hvars : variations p = [p; p; p; p; p; p]).
  { unfold variations, py_replace. rewrite !replace_from_absent by assumption.
    reflexivity. }
  split; [exact Hvars |].
  unfold resolve_alias. rewrite Hp, Hvars. cbn [default from_option id py_truthy negb].
  cbn [try_variations]. rewrite Hp. reflexivity.
Qed.

Lemma path_without_variation_is_its_own_alias_witness :
  resolve_alias {["action/0" := VStr "Turn on light"]} "sequence/0" = VStr "sequence/0".
Proof.
  apply (path_without_variation_is_its_own_alias
           {["action/0" := VStr "Turn on light"]} "sequence/0"); reflexivity.
Defined.

(** X7.  The alias of a display record is never falsy when the path is
    not empty: a falsy label found in the mapping gives way to the path. *)
Theorem resolved_alias_is_truthy (m : gmap string value) (p : string) :
  p <> "" -> py_truthy (resolve_alias m p) = true.
Proof.
  intros Hp. unfold resolve_alias.
  set (alias0 := default VNone (m !! p)).
  set (alias1 := if negb (py_truthy alias0)
                 then try_variations m (variations p) alias0 else alias0).
  destruct (py_truthy alias1) eqn:Halias; simpl.
  - exact Halias.
  - destruct (String.eqb_spec p ""); [contradiction | reflexivity].
Qed.

Lemma resolved_alias_is_truthy_witness :
  py_truthy (resolve_alias {["action/0" := VStr ""]} "action/0") = true.
Proof. apply resolved_alias_is_truthy. discriminate. Defined.

(** ** The events and the records of a run *)

Lemma result_map_Forall2 {A B} (f : A -> result B) (l : list A) (ys : list B) :
  result_map f l = ok ys -> Forall2 (fun x y => f x = ok y) l ys.
Proof.
  revert ys. induction l as [| x l IH]; simpl; intros ys Hys.
  - injection Hys as <-. constructor.
  - apply rbind_ok in Hys. destruct Hys as (y & Hy & Hys).
    apply rbind_ok in Hys. destruct Hys as (ys' & Hys' & Hys).
    injection Hys as <-. constructor; [exact Hy | apply IH, Hys'].
Qed.

Lemma result_map_of_pairs {A B} (f : A -> result B) (l : list (B * A)) :
  Forall (fun p => f (snd p) = ok (fst p)) l ->
  result_map f (map snd l) = ok (map fst l).
Proof.
  induction 1 as [| [y x] l Hx _ IH]; simpl; [reflexivity |].
  simpl in Hx. rewrite Hx. simpl. rewrite IH. reflexivity.
Qed.

Lemma result_map_zip {A B} (f : A -> result B) (l : list A) (ys : list B) :
  result_map f l = ok ys -> Forall (fun p => f (snd p) = ok (fst p)) (zip ys l).
Proof.
  intros Hys. apply result_map_Forall2 in Hys.
  induction Hys as [| x y l ys Hxy _ IH]; simpl; constructor; assumption.
Qed.

Lemma key_le_sorted_keys {A} (l : list (Z * A)) :
  Sorted key_le l -> Sorted Z.le (map fst l).
Proof.
  induction 1 as [| x l Hl IH Hx]; simpl; constructor; [exact IH |].
  destruct Hx; simpl; constructor. assumption.
Qed.

Lemma with_markers_length (n : nat) (ls : list line) :
  length (with_markers n ls) = (length ls + repeats ls)%nat.
Proof.
  revert n. unfold repeats. induction ls as [| l ls IH]; intros n; simpl; [reflexivity |].
  destruct (str_contains "repeat" (path l)); simpl; rewrite IH; lia.
Qed.

(** X8.  Every event taken from the table is the item list of a dict
    stored under one of the table's keys, alone or in a list, and has a
    [path] key: values that are not dicts and dicts without [path] are
    left out. *)
Theorem collected_events_come_from_the_table (table : list (string * value)) (ev : event) :
  In ev (collect_events table) ->
  is_Some (dict_lookup ev "path") /\
  exists (key : string) (v : value), In (key, v) table /\ In (VDict ev) (events_under v).
Proof.
  rewrite collect_events_order, in_flat_map. intros ([key v] & Hitem & Hev).
  unfold events_of in Hev. simpl in Hev. rewrite in_flat_map in Hev.
  destruct Hev as (x & Hx & Hev).
  destruct x as [| b | z | s | l | d]; try contradiction.
  destruct (dict_lookup d "path") as [p |] eqn:Hpath; [| contradiction].
  destruct Hev as [<- | []]. split; [exists p; exact Hpath |].
  exists key, v. split; assumption.
Qed.

Lemma collected_events_come_from_the_table_witness :
  is_Some (dict_lookup [("path", VStr "action/1"); ("timestamp", VStr Examples.T1)] "path").
Proof.
  apply (collected_events_come_from_the_table Examples.table_equal_timestamps).
  vm_compute. left. reflexivity.
Defined.

Section RunFacts.
Context `{PyRuntime}.

Lemma display_record_path mapping tz (ev : event) (l : line) :
  display_record mapping tz ev = ok l ->
  dict_get ev "path" = VStr (path l).
Proof.
  unfold display_record. intros Hl.
  apply rbind_ok in Hl. destruct Hl as (ts & _ & Hl).
  apply rbind_ok in Hl. destruct Hl as (dt & _ & Hl).
  apply rbind_ok in Hl. destruct Hl as (p & Hp & Hl).
  injection Hl as <-. simpl. unfold event_path in Hp. unfold dict_get.
  destruct (dict_lookup ev "path") as [[| b | z | s | l | d] |];
    try discriminate Hp. injection Hp as ->. reflexivity.
Qed.

Lemma display_records_paths mapping tz (evs : list event) (ls : list line) :
  result_map (display_record mapping tz) evs = ok ls ->
  map (fun ev => dict_get ev "path") evs = map (fun l => VStr (path l)) ls.
Proof.
  intros Hls. apply result_map_Forall2 in Hls.
  induction Hls as [| ev l evs ls Hl _ IH]; simpl; [reflexivity |].
  rewrite IH, (display_record_path _ _ _ _ Hl). reflexivity.
Qed.

(** X9.  When the normalizer returns, each event taken from the table
    has exactly one display record and that record carries the event's
    path: the paths of the records are a rearrangement of the paths of the
    events, and the output holds, besides the records, one marker for each
    record whose path contains [repeat]. *)
Theorem one_record_per_event (trace_data : value) (output_file timezone : option string)
    (w : world) (out : list entry) :
  fst (process_trace trace_data output_file timezone w) = ok out ->
  exists table : list (string * value),
    event_table trace_data = ok table /\
    Permutation (map (fun l => VStr (path l)) (records out))
                (map (fun ev => dict_get ev "path") (collect_events table)) /\
    length (records out) = length (collect_events table) /\
    length out = (length (records out) + repeats (records out))%nat.
Proof.
  rewrite process_trace_result, normalize_unfold. intros Hout.
  apply rbind_ok in Hout. destruct Hout as (tz & _ & Hout).
  apply rbind_ok in Hout. destruct Hout as (table & Htable & Hout).
  apply rbind_ok in Hout. destruct Hout as (sorted & Hsorted & Hout).
  apply rbind_ok in Hout. destruct Hout as (ls & Hls & Hout).
  injection Hout as <-. rewrite records_with_markers, with_markers_length.
  exists table. split; [exact Htable |].
  pose proof (sort_events_perm _ _ Hsorted) as Hperm.
  split; [| split; [| reflexivity]].
  - rewrite <- (display_records_paths _ _ _ _ Hls).
    apply Permutation_map, Hperm.
  - rewrite (result_map_length _ _ _ Hls). apply Permutation_length, Hperm.
Qed.

(** X10.  When the normalizer returns, its display records come in
    ascending order of the sort key of their events: the keys of the
    events, taken in output order, never decrease. *)
Theorem records_in_ascending_key_order (trace_data : value)
    (output_file timezone : option string) (w : world) (out : list entry) :
  fst (process_trace trace_data output_file timezone w) = ok out ->
  exists (sorted : list event) (keys : list Z) (tz : tzinfo),
    result_map (display_record (alias_mapping w) tz) sorted = ok (records out) /\
    result_map sort_key sorted = ok keys /\
    Sorted Z.le keys.
Proof.
  rewrite process_trace_result, normalize_unfold. intros Hout.
  apply rbind_ok in Hout. destruct Hout as (tz & _ & Hout).
  apply rbind_ok in Hout. destruct Hout as (table & Htable & Hout).
  apply rbind_ok in Hout. destruct Hout as (sorted & Hsorted & Hout).
  apply rbind_ok in Hout. destruct Hout as (ls & Hls & Hout).
  injection Hout as <-. rewrite records_with_markers.
  destruct (sort_events_unfold _ _ Hsorted) as (keys & Hkeys & _ & ->).
  exists (map snd (sort_by_key (zip keys (collect_events table)))),
         (map fst (sort_by_key (zip keys (collect_events table)))), tz.
  split; [exact Hls |]. split.
  - apply result_map_of_pairs.
    rewrite (sort_by_key_perm (zip keys (collect_events table))).
    apply result_map_zip, Hkeys.
  - apply key_le_sorted_keys, sort_by_key_sorted.
Qed.

Lemma process_trace_raise_keeps_world trace_data output_file timezone w (e : exn) :
  fst (process_trace trace_data output_file timezone w) = raise e ->
  process_trace trace_data output_file timezone w = (raise e, w).
Proof.
  unfold process_trace.
  destruct (normalize (alias_mapping w) trace_data timezone) as [e' | output].
  - simpl. intros [= ->]. reflexivity.
  - destruct output_file as [name |]; [destruct (negb (String.eqb name "")) |];
      discriminate.
Qed.

Lemma failing_event_stops_the_run mapping trace_data timezone table (ev : event) :
  event_table trace_data = ok table ->
  In ev (collect_events table) ->
  (forall tz, exists e, display_record mapping tz ev = raise e) ->
  exists e, normalize mapping trace_data timezone = raise e.
Proof.
  intros Htable Hev Hfails.
  destruct (normalize mapping trace_data timezone) as [e | output] eqn:Hnorm;
    [exists e; reflexivity | exfalso].
  rewrite normalize_unfold, Htable in Hnorm.
  apply rbind_ok in Hnorm. destruct Hnorm as (tz & _ & Hnorm). simpl in Hnorm.
  apply rbind_ok in Hnorm. destruct Hnorm as (sorted & Hsorted & Hnorm).
  apply rbind_ok in Hnorm. destruct Hnorm as (ls & Hls & _).
  assert (Hin : In ev sorted).
  { apply list_elem_of_In. rewrite (sort_events_perm _ _ Hsorted).
    apply list_elem_of_In, Hev. }
  destruct (result_map_elem _ _ _ ev Hls Hin) as [l Hl].
  destruct (Hfails tz) as [e He]. rewrite He in Hl. discriminate.
Qed.

(** X11.  One event without a [timestamp] among the events of the table
    is enough for [process_trace] to raise, whatever the other events,
    the mapping and the timezone are; nothing is written to the
    destination. *)
Theorem event_without_timestamp_stops_the_run (trace_data : value)
    (output_file timezone : option string) (w : world)
    (table : list (string * value)) (ev : event) :
  event_table trace_data = ok table ->
  In ev (collect_events table) ->
  dict_lookup ev "timestamp" = None ->
  exists e, process_trace trace_data output_file timezone w = (raise e, w).
Proof.
  intros Htable Hev Hts.
  destruct (failing_event_stops_the_run (alias_mapping w) trace_data timezone table ev
              Htable Hev) as [e He].
  { intros tz. exists (KeyError "timestamp").
    apply display_record_needs_timestamp, Hts. }
  exists e. apply process_trace_raise_keeps_world.
  rewrite process_trace_result. exact He.
Qed.

(** X12.  One event whose [path] is not a string is enough for
    [process_trace] to raise, whatever the other events are; nothing is
    written to the destination. *)
Theorem event_with_non_string_path_stops_the_run (trace_data : value)
    (output_file timezone : option string) (w : world)
    (table : list (string * value)) (ev : event) (p : value) :
  event_table trace_data = ok table ->
  In ev (collect_events table) ->
  dict_lookup ev "path" = Some p ->
  (forall s, p <> VStr s) ->
  exists e, process_trace trace_data output_file timezone w = (raise e, w).
Proof.
  intros Htable Hev Hpath Hp.
  destruct (failing_event_stops_the_run (alias_mapping w) trace_data timezone table ev
              Htable Hev) as [e He].
  { intros tz. unfold display_record.
    destruct (py_getitem (VDict ev) "timestamp") as [e | ts]; [exists e; reflexivity |].
    simpl. destruct (parse_timestamp ts) as [e | dt]; [exists e; reflexivity |].
    simpl. unfold event_path. rewrite Hpath.
    destruct p as [| b | z | s | l | d]; try (eexists; reflexivity).
    exfalso. apply (Hp s). reflexivity. }
  exists e. apply process_trace_raise_keeps_world.
  rewrite process_trace_result. exact He.
Qed.

(** X13.  An event without [changed_variables], with a falsy or absent
    [result] and a falsy or absent [error] gives a record with an empty
    data bag and no error, and that record is formatted on one line,
    [timestamp | alias | path], with no detail below it. *)
Theorem bare_event_formats_on_one_line mapping tz (ev : event) (l : line) :
  display_record mapping tz ev = ok l ->
  dict_lookup ev "changed_variables" = None ->
  py_truthy (default (VDict []) (dict_lookup ev "result")) = false ->
  py_truthy (dict_get ev "error") = false ->
  data l = [] /\ error l = None /\
  format_line l = timestamp l +:+ " | " +:+ py_str (alias l) +:+ " | " +:+ path l.
Proof.
  unfold display_record. intros Hl Hcv Hresult Herror.
  apply rbind_ok in Hl. destruct Hl as (ts & _ & Hl).
  apply rbind_ok in Hl. destruct Hl as (dt & _ & Hl).
  apply rbind_ok in Hl. destruct Hl as (p & _ & Hl).
  rewrite Hcv, Hresult, Herror in Hl. injection Hl as <-.
  repeat split.
Qed.
End RunFacts.

(** ** [main] *)

Section MainFacts.
Context `{PyRuntime}.

Lemma load_automation_dict (items : list (string * value)) :
  exists mapping, load_automation (VDict items) = ok mapping.
Proof. eexists. reflexivity. Qed.

(** X14.  For names that are non-empty strings, the alert is empty
    exactly when the friendly name of the trace is the main alias of the
    definition. *)
Theorem alert_iff_names_differ (main_alias friendly_name : string) :
  main_alias <> "" -> friendly_name <> "" ->
  (alert_name (VStr main_alias) (VStr friendly_name) = "" <->
   friendly_name = main_alias).
Proof.
  intros Halias Hname. unfold alert_name. simpl.
  destruct (String.eqb_spec friendly_name ""); [contradiction |].
  destruct (String.eqb_spec main_alias ""); [contradiction |]. simpl.
  destruct (String.eqb_spec friendly_name main_alias) as [Heq | Hne]; simpl.
  - split; [intros _; exact Heq | reflexivity].
  - split; [| contradiction].
    intros Halert. exfalso.
    apply (alert_text_nonempty (VStr main_alias) (VStr friendly_name)), Halert.
Qed.

(** X15.  With a destination, a run of [main] that ends well leaves in
    the destination the report, an empty line and the formatted trace, and
    nothing of what the file held before: the report is written over the
    file before [process_trace] appends to it. *)
Theorem main_overwrites_destination (env : environment) (yaml_file trace_file name : string)
    (cli_timezone : option string) (items : list (string * value)) (trace_data : value)
    (yaml_structure mapping_structure : string) (fs fs' : gmap string string)
    (shown : list printed) :
  name <> "" ->
  main env yaml_file trace_file (Some name) cli_timezone (VDict items) trace_data
    yaml_structure mapping_structure fs = (inr tt, fs', shown) ->
  exists (mapping : gmap string value) (out : list entry),
    load_automation (VDict items) = ok mapping /\
    normalize mapping trace_data (Some (get_timezone cli_timezone (local_zone env)))
      = ok out /\
    fs' !! name =
      Some ((output_structure
               (params_summary yaml_file trace_file (Some name)
                  (get_timezone cli_timezone (local_zone env)))
               (alert_name (dict_get items "alias") (find_friendly_name trace_data))
               yaml_structure mapping_structure +:+ nl +:+ nl)
            +:+ str_join nl (format_output out)).
Proof.
  intros Hname. unfold main.
  destruct (load_automation_dict items) as [mapping Hload]. rewrite Hload.
  unfold main_report. destruct (String.eqb_spec name ""); [contradiction |].
  unfold ok. cbn [negb]. cbv beta iota.
  destruct (String.eqb name trace_file); [destruct (select_timezone _); discriminate |].
  match goal with
  | |- context [process_trace _ _ _ ?w] => set (w1 := w)
  end.
  destruct (process_trace trace_data (Some name) _ w1) as [[e | out] w] eqn:Hrun;
    [discriminate |].
  intros [= <- _]. exists mapping, out. split; [reflexivity |].
  pose proof (process_trace_result trace_data (Some name)
                (Some (get_timezone cli_timezone (local_zone env))) w1) as Hout.
  rewrite Hrun in Hout. simpl in Hout. split; [symmetry; exact Hout |].
  apply process_trace_appends in Hrun; [| exact Hname]. subst w.
  unfold w1, write_file. simpl. rewrite !lookup_insert_eq. reflexivity.
Qed.


(** X17.  Without a destination and without colorama, a run whose alert
    is not empty stops at the alert: [Fore] was left unbound by the failed
    import, so [main] raises after printing the parameters only; the
    trace is not processed and no file changes. *)
Theorem alert_without_colorama_stops_main (env : environment)
    (yaml_file trace_file : string) (cli_timezone : option string)
    (items : list (string * value)) (trace_data : value)
    (yaml_structure mapping_structure : string) (fs : gmap string string) :
  colorama_installed env = false ->
  alert_name (dict_get items "alias") (find_friendly_name trace_data) <> "" ->
  main env yaml_file trace_file None cli_timezone (VDict items) trace_data
    yaml_structure mapping_structure fs =
  (inl (UnboundLocalError "Fore"), fs,
   [Plain (params_summary yaml_file trace_file None
             (get_timezone cli_timezone (local_zone env)))]).
Proof.
  intros Hcolorama Halert. unfold main.
  destruct (load_automation_dict items) as [mapping Hload]. rewrite Hload.
  unfold main_report, print_report. rewrite Hcolorama. simpl.
  destruct (String.eqb_spec
              (alert_name (dict_get items "alias") (find_friendly_name trace_data)) "");
    [contradiction |]. reflexivity.
Qed.

(** X18.  Without a destination, [main] changes no file, however it
    ends. *)
Theorem main_without_destination_writes_nothing (env : environment)
    (yaml_file trace_file : string) (cli_timezone : option string)
    (automation_yaml trace_data : value)
    (yaml_structure mapping_structure : string) (fs : gmap string string) :
  snd (fst (main env yaml_file trace_file None cli_timezone automation_yaml trace_data
              yaml_structure mapping_structure fs)) = fs.
Proof.
  unfold main.
  destruct (load_automation automation_yaml) as [e | mapping]; [reflexivity |].
  destruct (main_report _ _ _ _ _) as [e | [alert structure]]; [reflexivity |].
  destruct (print_report _ _ _ _ _ _ _) as [[e | []] shown]; [reflexivity |].
  set (w0 := {| alias_mapping := mapping; files := fs |}).
  destruct (process_trace trace_data None _ w0) as [[e | data] w] eqn:Hrun; simpl.
  - unfold process_trace in Hrun.
    destruct (normalize _ _ _); injection Hrun as _ <-; reflexivity.
  - unfold process_trace in Hrun.
    destruct (normalize _ _ _); injection Hrun as _ <-; reflexivity.
Qed.
End MainFacts.

(** ** The further properties on examples *)

Lemma load_automation_keys_witness :
  let items :=
    [("alias", VStr "Morning");
     ("action", VList [VDict [("alias", VStr "A"); ("then", VList [VInt 3])]])] in
  document_paths items = ["action/0"; "action/0/then/0"] /\
  exists m, @load_automation Reference.runtime (VDict items) = ok m /\
            dom m = list_to_set (document_paths items).
Proof.
  intros items. split; [reflexivity |].
  eexists. split; [reflexivity |].
  apply (@load_automation_keys Reference.runtime items). reflexivity.
Defined.

Lemma one_record_per_event_witness :
  exists (out : list entry) (table : list (string * value)),
    fst (@process_trace Reference.runtime Examples.trace_repeat None None
           Examples.empty_world) = ok out /\
    event_table Examples.trace_repeat = ok table /\
    length (records out) = length (collect_events table) /\
    length out = (length (records out) + repeats (records out))%nat.
Proof.
  destruct (fst (@process_trace Reference.runtime Examples.trace_repeat None None
                   Examples.empty_world)) as [e | out] eqn:Hrun.
  { vm_compute in Hrun. discriminate. }
  destruct (@one_record_per_event Reference.runtime _ _ _ _ out Hrun)
    as (table & Htable & _ & Hrecords & Hlength).
  exists out, table. repeat split; assumption.
Defined.

Lemma records_in_ascending_key_order_witness :
  exists (out : list entry) (sorted : list event) (keys : list Z),
    fst (@process_trace Reference.runtime Examples.trace_repeat None None
           Examples.empty_world) = ok out /\
    result_map (@sort_key Reference.runtime) sorted = ok keys /\
    Sorted Z.le keys.
Proof.
  destruct (fst (@process_trace Reference.runtime Examples.trace_repeat None None
                   Examples.empty_world)) as [e | out] eqn:Hrun.
  { vm_compute in Hrun. discriminate. }
  destruct (@records_in_ascending_key_order Reference.runtime _ _ _ _ out Hrun)
    as (sorted & keys & tz & _ & Hkeys & Hsorted).
  exists out, sorted, keys. repeat split; assumption.
Defined.

Lemma event_without_timestamp_stops_the_run_witness :
  exists e, @process_trace Reference.runtime Examples.trace_missing_timestamp
              (Some "trace.log") None Examples.logged_world
            = (raise e, Examples.logged_world).
Proof.
  apply (@event_without_timestamp_stops_the_run Reference.runtime
           Examples.trace_missing_timestamp (Some "trace.log") None Examples.logged_world
           [("action/0",
             VList [Examples.stamped "action/0" Examples.T1;
                    VDict [("path", VStr "action/0")]])]
           [("path", VStr "action/0")]).
  - reflexivity.
  - vm_compute. right. left. reflexivity.
  - reflexivity.
Defined.

Lemma event_with_non_string_path_stops_the_run_witness :
  exists e, @process_trace Reference.runtime
              (Examples.trace_of
                 [("action/0",
                   VDict [("path", VInt 3); ("timestamp", VStr Examples.T1)])])
              None None Examples.empty_world
            = (raise e, Examples.empty_world).
Proof.
  apply (@event_with_non_string_path_stops_the_run Reference.runtime _ None None
           Examples.empty_world
           [("action/0", VDict [("path", VInt 3); ("timestamp", VStr Examples.T1)])]
           [("path", VInt 3); ("timestamp", VStr Examples.T1)] (VInt 3)).
  - reflexivity.
  - vm_compute. left. reflexivity.
  - reflexivity.
  - discriminate.
Defined.

Lemma bare_event_formats_on_one_line_witness :
  exists l : line,
    @display_record Reference.runtime ∅ tt
      [("path", VStr "action/1"); ("timestamp", VStr Examples.T1)] = ok l /\
    @format_line Reference.runtime l =
      "2024-05-01 10:00:00.000002 UTC | action/1 | action/1".
Proof.
  destruct (@display_record Reference.runtime ∅ tt
              [("path", VStr "action/1"); ("timestamp", VStr Examples.T1)])
    as [e | l] eqn:Hl.
  { vm_compute in Hl. discriminate. }
  exists l. split; [reflexivity |].
  destruct (@bare_event_formats_on_one_line Reference.runtime ∅ tt _ l Hl
              eq_refl eq_refl eq_refl) as (_ & _ & ->).
  vm_compute in Hl. injection Hl as <-. reflexivity.
Defined.

Lemma alert_iff_names_differ_witness :
  @alert_name Reference.runtime (VStr "Morning lights") (VStr "Morning lights") = "".
Proof.
  apply (@alert_iff_names_differ Reference.runtime "Morning lights" "Morning lights");
    [discriminate | discriminate | reflexivity].
Defined.

Lemma main_overwrites_destination_witness :
  let env := {| colorama_installed := false; rich_installed := false;
                local_zone := raise ValueError |} in
  exists (fs' : gmap string string) (shown : list printed) (out : list entry),
    @main Reference.runtime env "automation.yaml" "trace.json" (Some "trace.log") None
      (VDict [("alias", VStr "Morning lights")]) Examples.trace_repeat "{}" "{}"
      {["trace.log" := "what the file held before"]} = (inr tt, fs', shown) /\
    @normalize Reference.runtime ∅ Examples.trace_repeat (Some "UTC") = ok out /\
    fs' !! "trace.log" =
      Some ((@output_structure
               (params_summary "automation.yaml" "trace.json" (Some "trace.log") "UTC")
               (@alert_name Reference.runtime (VStr "Morning lights") VNone)
               "{}" "{}" +:+ nl +:+ nl)
            +:+ str_join nl (@format_output Reference.runtime out)).
Proof.
  intros env.
  destruct (@main Reference.runtime env "automation.yaml" "trace.json" (Some "trace.log")
              None (VDict [("alias", VStr "Morning lights")]) Examples.trace_repeat
              "{}" "{}" {["trace.log" := "what the file held before"]})
    as [[[e | []] fs'] shown] eqn:Hmain.
  { vm_compute in Hmain. discriminate. }
  destruct (@main_overwrites_destination Reference.runtime env _ _ "trace.log" _ _ _ _ _ _
              fs' shown ltac:(discriminate) Hmain) as (mapping & out & Hload & Hout & Hfile).
  injection Hload as <-.
  exists fs', shown, out. split; [reflexivity |]. split; [exact Hout | exact Hfile].
Defined.


Lemma alert_without_colorama_stops_main_witness :
  let env := {| colorama_installed := false; rich_installed := true;
                local_zone := ok "Europe/Lisbon" |} in
  @main Reference.runtime env "automation.yaml" "trace.json" None None
    (VDict [("alias", VStr "Morning lights")]) Examples.trace_bare_trigger "{}" "{}" ∅ =
  (inl (UnboundLocalError "Fore"), ∅,
   [Plain (params_summary "automation.yaml" "trace.json" None "Europe/Lisbon")]).
Proof.
  intros env.
  apply (@alert_without_colorama_stops_main Reference.runtime env);
    [reflexivity | vm_compute; discriminate].
Defined.

(** * The alias mapper on documents with keys of any kind *)

Section KeyedInduction.
Variable P : Keyed.yaml -> Prop.
Hypothesis HScalar : forall k, P (Keyed.YScalar k).
Hypothesis HList : forall l, Forall P l -> P (Keyed.YList l).
Hypothesis HDict : forall d, Forall (fun item => P (snd item)) d -> P (Keyed.YDict d).

End KeyedInduction.


Section KeyedMapperFacts.
Variable repr : Keyed.yaml -> string.







End KeyedMapperFacts.



(** A scalar element of a list is not descended into, but the list
    branch files its path like any other element's. *)
Example scalar_list_element_is_filed :
  Keyed.load_automation Keyed.plain_repr
    (Keyed.YDict [(Keyed.KStr "action", Keyed.YList [Keyed.YScalar (Keyed.KInt 3)])])
  = ok {[Keyed.KStr "action/0" := Keyed.YScalar (Keyed.KStr "action/0")]}.
Proof. vm_compute. reflexivity. Qed.

(** * The alert on the console and events without timestamps *)

(** C9.  The lookup of the friendly name fails on a trace whose
    [trigger/0] entry is a bare event, so the alert is set; without a
    destination and without colorama, [main] then prints the parameters,
    reaches the print of the alert with [Fore] unbound and raises: the
    alert is not shown and the run ends there.  With colorama installed
    the same run prints the alert in red and goes on. *)
Theorem alert_lost_without_colorama :
  lookup_friendly_name trace_bare_trigger_stamped = raise (KeyError "0") /\
  @alert_name Reference.runtime (VStr "Morning lights")
    (find_friendly_name trace_bare_trigger_stamped) =
    @alert_text Reference.runtime (VStr "Morning lights") VNone /\
  @main Reference.runtime
    {| colorama_installed := false; rich_installed := false; local_zone := ok "UTC" |}
    "automation.yaml" "trace.json" None None
    (VDict [("alias", VStr "Morning lights")]) trace_bare_trigger_stamped "{}" "{}" ∅ =
  (inl (UnboundLocalError "Fore"), ∅,
   [Plain (params_summary "automation.yaml" "trace.json" None "UTC")]) /\
  exists shown : list printed,
    @main Reference.runtime
      {| colorama_installed := true; rich_installed := false; local_zone := ok "UTC" |}
      "automation.yaml" "trace.json" None None
      (VDict [("alias", VStr "Morning lights")]) trace_bare_trigger_stamped "{}" "{}" ∅ =
    (inr tt, ∅,
     [Plain (params_summary "automation.yaml" "trace.json" None "UTC");
      Red (@alert_text Reference.runtime (VStr "Morning lights") VNone)] ++ shown).
Proof.
  split; [reflexivity |]. split; [reflexivity |]. split; [vm_compute; reflexivity |].
  eexists. vm_compute. reflexivity.
Qed.

(** C10.  Two events without a timestamp, under two keys of the table:
    both get the sort key 0 and the sort keeps them in the order of the
    table, but the loop raises on the first of them, so neither appears in
    any output. *)
Theorem events_without_timestamp_never_appear (w : world) :
  @sort_events Reference.runtime (collect_events table_without_timestamps)
  = ok [ [("path", VStr "action/0")]; [("path", VStr "action/1")] ] /\
  @process_trace Reference.runtime (Examples.trace_of table_without_timestamps)
    None None w = (raise (KeyError "timestamp"), w).
Proof. split; reflexivity. Qed.

(** * The two models of the alias mapper agree on string keys *)

#[global] Instance KStr_inj : Inj (=) (=) Keyed.KStr.
Proof. intros s t [= ->]. reflexivity. Qed.

Lemma result_fold_agrees {A A' S S'} (e : A -> A') (es : S -> S')
    (f : S -> A -> S) (f' : S' -> A' -> result S') (l : list A) :
  Forall (fun x => forall s, f' (es s) (e x) = ok (es (f s x))) l ->
  forall s, result_fold f' (map e l) (es s) = ok (es (fold_left f l s)).
Proof.
  induction 1 as [| x l Hx _ IH]; intros s; simpl; [reflexivity |].
  rewrite Hx. simpl. apply IH.
Qed.

(** Rewrites the loop of the keyed model over [map e l] into the fold
    of the other model over [l], leaving the agreement of one round. *)
Ltac agree_fold e es l init :=
  match goal with
  | |- context [result_fold ?f' (map e l) _] =>
      match goal with
      | |- context [fold_left ?f l init] =>
          let Hloop := fresh "Hloop" in
          pose proof (result_fold_agrees e es f f' l) as Hloop;
          lazymatch type of Hloop with
          | ?P -> _ =>
              let HF := fresh "HF" in
              assert (HF : P);
              [| specialize (Hloop HF init);
                 cbn beta iota delta [fst snd] in Hloop;
                 rewrite Hloop; try reflexivity]
          end
      end
  end.

Lemma embed_mapping_insert (m : gmap string value) (p : string) (v : value) :
  embed_mapping (<[p := v]> m) = <[Keyed.KStr p := embed v]> (embed_mapping m).
Proof.
  unfold embed_mapping. rewrite fmap_insert.
  apply (kmap_insert (M1 := gmap string) (M2 := gmap Keyed.key) Keyed.KStr).
Qed.

Lemma embed_mapping_empty : embed_mapping ∅ = ∅.
Proof. unfold embed_mapping. rewrite fmap_empty. apply kmap_empty. Qed.

Lemma truthy_embed (v : value) : Keyed.truthy (embed v) = py_truthy v.
Proof. destruct v as [| b | z | s | [| x l] | [| x d]]; reflexivity. Qed.

Lemma get_alias_embed (d : list (string * value)) :
  Keyed.get_alias
    (map (fun item : string * value => (Keyed.KStr (fst item), embed (snd item))) d)
  = embed (dict_get d "alias").
Proof.
  unfold dict_get. induction d as [| [k v] d IH]; simpl; [reflexivity |].
  destruct (String.eqb k "alias"); [reflexivity | exact IH].
Qed.

Section ModelsAgree.
Context `{PyRuntime}.
Variable repr : Keyed.yaml -> string.
Hypothesis repr_embed : forall v : value, repr (embed v) = py_repr v.

Lemma yaml_str_embed (v : value) : Keyed.yaml_str repr (embed v) = py_str v.
Proof.
  destruct v as [| [|] | z | s | l | d]; try reflexivity.
  - exact (repr_embed (VList l)).
  - exact (repr_embed (VDict d)).
Qed.

Lemma inherited_label_embed (p : string) (na : value) (nap : option string) :
  Keyed.inherited_label repr (Keyed.KStr p) (embed na) (Keyed.KStr <$> nap)
  = ok (embed (inherited_label p na nap)).
Proof.
  unfold Keyed.inherited_label, inherited_label.
  rewrite truthy_embed, yaml_str_embed.
  destruct (py_truthy na); [| reflexivity].
  destruct nap as [q |]; simpl; [| reflexivity].
  destruct (negb (String.eqb q "")); reflexivity.
Qed.

Lemma models_agree_nested (steps : value) :
  agrees repr steps /\
  match steps with
  | VDict d => Forall (fun item => agrees repr (snd item)) d
  | _ => True
  end.
Proof.
  induction steps as [| b | z | s | l IH | d IH] using value_nested_ind;
    try (split; [intros base m na nap; reflexivity | exact I]).
  - split; [| exact I]. intros base m na nap. cbn [embed Keyed.map_steps map_steps].
    agree_fold embed
      (fun acc : nat * gmap string value => (fst acc, embed_mapping (snd acc)))
      l (O, m).
    rewrite Forall_forall in IH |- *. intros step Hstep [idx m'].
    destruct (IH step Hstep) as [_ Hitems].
    cbn [fst snd Keyed.key_truthy Keyed.key_str].
    set (path := if negb (String.eqb base "")
                 then base +:+ "/" +:+ pretty idx
                 else "sequence/" +:+ pretty idx).
    destruct step as [| b | z | s | l' | d]; cbn [embed Keyed.truthy Keyed.key_truthy];
      try (rewrite inherited_label_embed; simpl;
           rewrite embed_mapping_insert; reflexivity).
    rewrite get_alias_embed, truthy_embed. simpl in Hitems.
    destruct (py_truthy (dict_get d "alias")); simpl;
      rewrite ?inherited_label_embed; simpl; rewrite <- embed_mapping_insert;
      match goal with
      | |- context [fold_left _ d ?init] =>
          agree_fold
            (fun item : string * value => (Keyed.KStr (fst item), embed (snd item)))
            embed_mapping d init
      end;
      rewrite Forall_forall in Hitems |- *; intros [key v] Hitem m'';
      first [ exact (Hitems (key, v) Hitem _ m'' (dict_get d "alias") (Some path))
            | exact (Hitems (key, v) Hitem _ m'' na nap) ].
  - assert (Hchildren : Forall (fun item => agrees repr (snd item)) d).
    { eapply Forall_impl; [exact IH |]. intros item [Hitem _]. exact Hitem. }
    split; [| exact Hchildren]. intros base m na nap.
    cbn [embed Keyed.map_steps map_steps Keyed.key_truthy Keyed.dict_key].
    rewrite get_alias_embed, !truthy_embed.
    destruct (py_truthy (dict_get d "alias")), (py_truthy na),
      (negb (String.eqb base "")) eqn:Hbase; simpl;
      rewrite ?inherited_label_embed; simpl;
      try change (Keyed.YScalar (Keyed.KStr base)) with (embed (VStr base));
      rewrite <- ?embed_mapping_insert;
      match goal with
      | |- context [fold_left _ d ?init] =>
          agree_fold
            (fun item : string * value => (Keyed.KStr (fst item), embed (snd item)))
            embed_mapping d init
      end;
      rewrite Forall_forall in Hchildren |- *; intros [key v] Hitem m';
      cbn [fst snd Keyed.key_str];
      first [ exact (Hchildren (key, v) Hitem _ m' (dict_get d "alias") (Some base))
            | exact (Hchildren (key, v) Hitem _ m' na nap) ].
Qed.
Lemma is_container_embed (v : value) :
  Keyed.is_container (embed v) = is_container v.
Proof. destruct v; reflexivity. Qed.

(** X21.  On a document whose dicts all have string keys, the mapper
    with keys of any kind and the mapper with string keys do the same:
    both raise [AttributeError] on a document that is not a dict, and on a
    dict both return the same mapping. *)
Theorem keyed_mapper_agrees_on_string_keys (doc : value) :
  Keyed.load_automation repr (embed doc) =
  match load_automation doc with
  | inr m => ok (embed_mapping m)
  | inl e => raise e
  end.
Proof.
  destruct doc as [| b | z | s | l | items]; try reflexivity.
  cbn [embed Keyed.load_automation load_automation]. unfold ok at 2.
  rewrite <- embed_mapping_empty.
  agree_fold
    (fun item : string * value => (Keyed.KStr (fst item), embed (snd item)))
    embed_mapping items (∅ : gmap string value).
  apply Forall_forall. intros [key v] _ m. cbn [fst snd Keyed.is_sequence_key].
  rewrite is_container_embed.
  destruct (String.eqb key "sequence" || is_container v); [| reflexivity].
  destruct (models_agree_nested v) as [Hv _].
  exact (Hv key m VNone None).
Qed.
End ModelsAgree.

Lemma plain_repr_embed (v : value) : Keyed.plain_repr (embed v) = Reference.repr v.
Proof.
  induction v as [| [|] | z | s | l IH | d IH] using value_nested_ind; try reflexivity.
  - cbn [embed Keyed.plain_repr Reference.repr]. rewrite map_map.
    f_equal. f_equal. f_equal.
    apply map_ext_Forall, IH.
  - cbn [embed Keyed.plain_repr Reference.repr]. rewrite map_map.
    f_equal. f_equal. f_equal.
    apply map_ext_Forall. eapply Forall_impl; [exact IH |].
    intros [k x] Hx. simpl in *. rewrite Hx. reflexivity.
Qed.

Lemma keyed_mapper_agrees_on_string_keys_witness :
  Keyed.load_automation Keyed.plain_repr (embed Examples.doc_inherited) =
  ok (embed_mapping
        (<["action/0" := VStr "A"]> (<["action/0/then/0" := VStr "A//then/0"]> ∅))).
Proof.
  rewrite (@keyed_mapper_agrees_on_string_keys Reference.runtime Keyed.plain_repr
             plain_repr_embed Examples.doc_inherited).
  vm_compute. reflexivity.
Defined.
